(** * GoMart: the stock-adjustment route, the vendor login route and the
      cart controller of the home page

    The development follows three source files:
    - [app/api/products/[id]/stock] route handler [PATCH],
    - [app/api/auth/vendor-login] route handler [POST],
    - [app/page.tsx] ([HomePage]): [readCart], [writeCart],
      [updateProductStock], [addToCart], [updateCartQuantity],
      [removeFromCart], [clearCart],
    and, around them, the quantity selector, the totals and the category
    icons of the home page, the vendor login page ([handleSubmit]) and the
    vendor dashboard ([loadStats] and the effect run on mount).

    Numbers are the integers the JSON bodies carry; they are taken exact
    (type [Z]).  The relational store is a finite map from product
    identifiers to rows. *)

From stdpp Require Import base gmap strings list fin_maps pretty.
From Stdlib Require Import ZArith Lia Ascii.
From Stdlib Require QArith.

Open Scope string_scope.
Open Scope list_scope.
Open Scope Z_scope.

(** ** JSON values read from a request body *)

(** A field of a parsed body as the handlers look at it: missing
    ([undefined]), [null], or an integer.  A field of the stock route's
    body is declared [integer]; the other JSON types are outside this
    model. *)
Inductive jsval : Type :=
| JUndefined
| JNull
| JNum (n : Z).

(** [NextResponse.json(body, { status })]: the status code and the fields
    of the body every handler fills. *)
Record response (D : Type) : Type := Response {
  code : Z;
  status : string;
  message : string;
  data : option D
}.
Arguments Response {D} _ _ _ _.
Arguments code {D} _.
Arguments status {D} _.
Arguments message {D} _.
Arguments data {D} _.

(** [response.ok] of the fetch API. *)
Definition ok {D} (r : response D) : bool :=
  (200 <=? code r) && (code r <=? 299).

(** ** The product table and the handler's database calls *)

(** The columns of [product] the stock route selects. *)
Record row : Type := Row {
  row_productName : string;
  row_stockQuantity : Z
}.

Abbreviation store := (gmap string row).

(** A handler is a tree of awaited database calls.  Between two awaits the
    handler runs without interruption; each call is one access to the
    table. *)
Inductive prog (A : Type) : Type :=
| Ret (a : A)
| FindUnique (id : string) (k : option row -> prog A)
| Update (id : string) (stockQuantity : Z) (k : option row -> prog A).
Arguments Ret {A} _.
Arguments FindUnique {A} _ _.
Arguments Update {A} _ _ _.

Fixpoint prog_bind {A B} (f : A -> prog B) (p : prog A) : prog B :=
  match p with
  | Ret a => f a
  | FindUnique id k => FindUnique id (fun r => prog_bind f (k r))
  | Update id n k => Update id n (fun r => prog_bind f (k r))
  end.

#[export] Instance prog_mret : MRet prog := fun _ a => Ret a.
#[export] Instance prog_mbind : MBind prog := fun _ _ f p => prog_bind f p.

(** [prisma.product.findUnique({ where: { id } })] *)
Definition findUnique (id : string) : prog (option row) :=
  FindUnique id Ret.

(** [prisma.product.update({ where: { id }, data: { stockQuantity } })];
    [None] stands for the rejection prisma raises when no row has the id. *)
Definition update (id : string) (stockQuantity : Z) : prog (option row) :=
  Update id stockQuantity Ret.

(** One database access of a handler. *)
Definition db_step {A} (p : prog A) (db : store) : store * prog A :=
  match p with
  | Ret a => (db, Ret a)
  | FindUnique id k => (db, k (db !! id))
  | Update id n k =>
      match db !! id with
      | Some r =>
          let r' := Row (row_productName r) n in
          (<[id := r']> db, k (Some r'))
      | None => (db, k None)
      end
  end.

(** A handler served alone, from its first statement to its reply. *)
Fixpoint run {A} (p : prog A) (db : store) : store * A :=
  match p with
  | Ret a => (db, a)
  | FindUnique id k => run (k (db !! id)) db
  | Update id n k =>
      match db !! id with
      | Some r =>
          let r' := Row (row_productName r) n in
          run (k (Some r')) (<[id := r']> db)
      | None => run (k None) db
      end
  end.

(** Two handlers in flight: [sched] says which one performs its next
    database access ([false] the first, [true] the second). *)
Fixpoint interleave {A} (sched : list bool) (db : store) (p q : prog A)
  : store * prog A * prog A :=
  match sched with
  | [] => (db, p, q)
  | false :: sched' =>
      let '(db', p') := db_step p db in interleave sched' db' p' q
  | true :: sched' =>
      let '(db', q') := db_step q db in interleave sched' db' p q'
  end.

(** ** PATCH /api/products/[id]/stock *)

Module StockRoute.

Record body : Type := Body {
  quantityChange : jsval;
  operation : jsval
}.

(** [select: { id, productName, stockQuantity }] of the update. *)
Record updatedProduct : Type := UpdatedProduct {
  up_id : string;
  up_productName : string;
  up_stockQuantity : Z
}.

Inductive payload : Type :=
| Insufficient (currentStock requestedChange : Z)
| Updated (product : updatedProduct) (previousStock newStock change : Z).

Definition previousStock (r : response payload) : option Z :=
  match data r with
  | Some (Updated _ prev _ _) => Some prev
  | _ => None
  end.

Definition newStock (r : response payload) : option Z :=
  match data r with
  | Some (Updated _ _ new _) => Some new
  | _ => None
  end.

Definition required : response payload :=
  Response 400 "error" "Quantity change is required" None.

Definition not_found : response payload :=
  Response 404 "error" "Product not found" None.

Definition insufficient (currentStock requestedChange : Z) : response payload :=
  Response 400 "error" "Insufficient stock. Cannot reduce stock below 0."
           (Some (Insufficient currentStock requestedChange)).

Definition success (product : updatedProduct) (previous new change : Z)
  : response payload :=
  Response 200 "success" "Stock updated successfully"
           (Some (Updated product previous new change)).

(** The reply of the [catch] block. *)
Definition failed : response payload :=
  Response 500 "error" "Failed to update stock" None.

(** The handler.  [request] is the result of [await request.json()]:
    [None] when the body does not parse to an object, which throws
    inside the [try]. *)
Definition PATCH (id : string) (request : option body)
  : prog (response payload) :=
  match request with
  | None => Ret failed
  | Some b =>
      match quantityChange b with
      | JUndefined | JNull => Ret required
      | JNum quantityChange =>
          product ← findUnique id;
          match product with
          | None => Ret not_found
          | Some product =>
              let newStockQuantity := row_stockQuantity product + quantityChange in
              if newStockQuantity <? 0 then
                Ret (insufficient (row_stockQuantity product) quantityChange)
              else
                updated ← update id newStockQuantity;
                match updated with
                | None => Ret failed
                | Some u =>
                    Ret (success
                           (UpdatedProduct id (row_productName u) (row_stockQuantity u))
                           (row_stockQuantity product) newStockQuantity quantityChange)
                end
          end
      end
  end.

(** The validation error of the route, told from the other 400 by its
    message. *)
Definition is_validation_error (r : response payload) : Prop :=
  code r = 400 ∧ message r = "Quantity change is required".

Definition is_insufficient_stock (r : response payload) : Prop :=
  code r = 400 ∧ message r = "Insufficient stock. Cannot reduce stock below 0.".

(** The stock column of a product, when the product exists. *)
Definition stock_of (db : store) (id : string) : option Z :=
  row_stockQuantity <$> db !! id.

Definition stock_nonneg (db : store) : Prop :=
  map_Forall (fun _ r => 0 <= row_stockQuantity r) db.

End StockRoute.

(** ** POST /api/auth/vendor-login *)

Module VendorLogin.

(** The columns of [vendor] the login flow and the dashboard read. *)
Record vendor : Type := Vendor {
  vendor_id : string;
  vendorName : string;
  email : string;
  phoneNumber : string;
  isActive : bool;
  isVerified : bool
}.

(** A body field that is a string when present; [None] is [undefined]
    or [null]. *)
Record body : Type := Body {
  identifier : option string;
  password : option string
}.

(** [!x] on such a field: missing, or the empty string. *)
Definition falsy (x : option string) : bool :=
  match x with
  | None => true
  | Some s => bool_decide (s = "")
  end.

(** [data: { vendor: { ...safeVendor, userType: 'vendor' } }] *)
Record payload : Type := Payload {
  pl_vendor : vendor;
  userType : string
}.

Definition missing : response payload :=
  Response 400 "error" "Please provide email/phone and password" None.

Definition invalid : response payload :=
  Response 401 "error" "Invalid credentials" None.

Definition inactive : response payload :=
  Response 403 "error" "Your account is not active. Please contact support." None.

Definition success (v : vendor) : response payload :=
  Response 200 "success" "Login successful" (Some (Payload v "vendor")).

Definition failed : response payload :=
  Response 500 "error" "Failed to login" None.

Section Route.

(** [String.prototype.trim] and [String.prototype.toLowerCase]. *)
Variables trim toLowerCase : string -> string.

(** [prisma.vendor.findFirst({ where: { OR: [{ email }, { phoneNumber }] } })]
    over the table in its stored order. *)
Definition findFirst (vendors : list vendor) (mail phone : string)
  : option vendor :=
  snd <$> list_find (fun v => email v = mail ∨ phoneNumber v = phone) vendors.

(** The handler; [request] is [None] when [request.json()] throws. *)
Definition POST (vendors : list vendor) (request : option body)
  : response payload :=
  match request with
  | None => failed
  | Some b =>
      if falsy (identifier b) || falsy (password b) then missing
      else
        match identifier b with
        | None => missing
        | Some identifier =>
            let normalizedIdentifier := toLowerCase (trim identifier) in
            match findFirst vendors normalizedIdentifier (trim identifier) with
            | None => invalid
            | Some vendor =>
                if negb (isActive vendor) then inactive
                else success vendor
            end
        end
  end.

End Route.

(** Blank characters removed by the ASCII instance of [trim]. *)
Definition blank (a : ascii) : bool :=
  let n := nat_of_ascii a in
  ((9 <=? n) && (n <=? 13))%nat || (n =? 32)%nat.

Fixpoint trim_start (s : string) : string :=
  match s with
  | String a s' => if blank a then trim_start s' else s
  | EmptyString => EmptyString
  end.

Definition ascii_trim (s : string) : string :=
  String.rev (trim_start (String.rev (trim_start s))).

Definition lower (a : ascii) : ascii :=
  let n := nat_of_ascii a in
  if ((65 <=? n) && (n <=? 90))%nat then ascii_of_nat (n + 32) else a.

Fixpoint ascii_toLowerCase (s : string) : string :=
  match s with
  | String a s' => String (lower a) (ascii_toLowerCase s')
  | EmptyString => EmptyString
  end.

End VendorLogin.

(** ** The home page: cart store and cart controller *)

Module HomePage.

(** [type Product], with the fields the cart controller reads.  The
    price is only copied into the cart line; it is kept as an amount in
    the smallest unit. *)
Record Product : Type := MkProduct {
  id : string;
  productName : string;
  price : Z;
  imageURL : option string;
  stockQuantity : Z
}.

(** [type CartItem]. *)
Record CartItem : Type := MkCartItem {
  productId : string;
  item_productName : string;
  item_price : Z;
  item_imageURL : option string;
  quantity : Z;
  item_stockQuantity : Z
}.

Inductive toast : Type :=
| ToastError (msg : string)
| ToastSuccess (msg : string).

(** Everything a cart operation reads or writes: the server's table,
    the transport, the browser's storage and the page's React state.
    - [net] scripts the transport, one entry per [fetch], [true] for a
      request that is lost before it reaches the server; when the
      script is used up requests are delivered;
    - [requests] records the stock requests issued, oldest first;
    - [localStorage] is the parsed value under [CART_KEY], [[]] when
      the key is absent. *)
Record world : Type := World {
  server : store;
  net : list bool;
  requests : list (string * Z);
  localStorage : list CartItem;
  featuredProducts : list Product;
  productQuantities : gmap string Z;
  cartItems : list CartItem;
  showCartPreview : bool;
  toasts : list toast;
  console : list string
}.

Definition set_server (x : store) (w : world) : world :=
  World x (net w) (requests w) (localStorage w) (featuredProducts w)
        (productQuantities w) (cartItems w) (showCartPreview w) (toasts w) (console w).
Definition set_net (x : list bool) (w : world) : world :=
  World (server w) x (requests w) (localStorage w) (featuredProducts w)
        (productQuantities w) (cartItems w) (showCartPreview w) (toasts w) (console w).
Definition set_requests (x : list (string * Z)) (w : world) : world :=
  World (server w) (net w) x (localStorage w) (featuredProducts w)
        (productQuantities w) (cartItems w) (showCartPreview w) (toasts w) (console w).
Definition set_localStorage (x : list CartItem) (w : world) : world :=
  World (server w) (net w) (requests w) x (featuredProducts w)
        (productQuantities w) (cartItems w) (showCartPreview w) (toasts w) (console w).
Definition set_featuredProducts (x : list Product) (w : world) : world :=
  World (server w) (net w) (requests w) (localStorage w) x
        (productQuantities w) (cartItems w) (showCartPreview w) (toasts w) (console w).
Definition set_productQuantities (x : gmap string Z) (w : world) : world :=
  World (server w) (net w) (requests w) (localStorage w) (featuredProducts w)
        x (cartItems w) (showCartPreview w) (toasts w) (console w).
Definition set_cartItems (x : list CartItem) (w : world) : world :=
  World (server w) (net w) (requests w) (localStorage w) (featuredProducts w)
        (productQuantities w) x (showCartPreview w) (toasts w) (console w).
Definition set_showCartPreview (x : bool) (w : world) : world :=
  World (server w) (net w) (requests w) (localStorage w) (featuredProducts w)
        (productQuantities w) (cartItems w) x (toasts w) (console w).
Definition set_toasts (x : list toast) (w : world) : world :=
  World (server w) (net w) (requests w) (localStorage w) (featuredProducts w)
        (productQuantities w) (cartItems w) (showCartPreview w) x (console w).
Definition set_console (x : list string) (w : world) : world :=
  World (server w) (net w) (requests w) (localStorage w) (featuredProducts w)
        (productQuantities w) (cartItems w) (showCartPreview w) (toasts w) x.

(** *** Actions: state passing with thrown errors

    An action ends with a value or with a thrown [Error], of which the
    message is kept. *)
Definition act (A : Type) : Type := world -> world * (A + string).

Definition ret {A} (a : A) : act A := fun w => (w, inl a).

Definition bind {A B} (c : act A) (k : A -> act B) : act B :=
  fun w =>
    match c w with
    | (w', inl a) => k a w'
    | (w', inr e) => (w', inr e)
    end.

Definition throw {A} (e : string) : act A := fun w => (w, inr e).

(** [try { c } catch (error) { h error }] *)
Definition try_catch {A} (c : act A) (h : string -> act A) : act A :=
  fun w =>
    match c w with
    | (w', inl a) => (w', inl a)
    | (w', inr e) => h e w'
    end.

Definition get : act world := fun w => (w, inl w).

Definition modify (f : world -> world) : act unit := fun w => (f w, inl tt).

Notation "'let*' x ':=' c 'in' k" := (bind c (fun x => k))
  (at level 10, x name, c at level 100, k at level 200, only parsing).
Notation "c ';;' k" := (bind c (fun _ => k))
  (at level 100, k at level 200, right associativity, only parsing).

Fixpoint for_each {A} (f : A -> act unit) (l : list A) : act unit :=
  match l with
  | [] => ret tt
  | x :: l' => f x ;; for_each f l'
  end.

(** The world an action leaves. *)
Definition exec {A} (c : act A) (w : world) : world := fst (c w).

Definition toast_error (msg : string) : act unit :=
  modify (fun w => set_toasts (toasts w ++ [ToastError msg]) w).

Definition toast_success (msg : string) : act unit :=
  modify (fun w => set_toasts (toasts w ++ [ToastSuccess msg]) w).

Definition console_error (label : string) : act unit :=
  modify (fun w => set_console (console w ++ [label]) w).

(** [x || fallback] on a number that may be missing. *)
Definition or_number (x : option Z) (fallback : Z) : Z :=
  match x with
  | Some 0 | None => fallback
  | Some n => n
  end.

(** [x || fallback] on a string. *)
Definition or_string (x fallback : string) : string :=
  if bool_decide (x = "") then fallback else x.

(** [list.find(p => p.id === productId)] *)
Definition find_product (productId : string) (l : list Product) : option Product :=
  snd <$> list_find (fun p => id p = productId) l.

(** [list.find(i => i.productId === productId)] *)
Definition find_item (pid : string) (l : list CartItem) : option CartItem :=
  snd <$> list_find (fun i => productId i = pid) l.

(** *** Cart store *)

Definition readCart : act (list CartItem) :=
  fun w => (w, inl (localStorage w)).

(** [writeCart] stores the items and dispatches the storage event, on
    which the page's listener reloads [cartItems] from the store. *)
Definition writeCart (items : list CartItem) : act unit :=
  modify (set_localStorage items) ;;
  let* stored := readCart in
  modify (set_cartItems stored).

Definition setCartItems (items : list CartItem) : act unit :=
  modify (set_cartItems items).

Definition setShowCartPreview (b : bool) : act unit :=
  modify (set_showCartPreview b).

(** [setFeaturedProducts(prev => prev.map(p => p.id === productId ?
    { ...p, stockQuantity } : p))] *)
Definition with_stock (pid : string) (n : Z) (l : list Product) : list Product :=
  map (fun p => if decide (id p = pid)
                then MkProduct (id p) (productName p) (price p) (imageURL p) n
                else p) l.

Definition setStockQuantity (pid : string) (n : Z) : act unit :=
  modify (fun w => set_featuredProducts (with_stock pid n (featuredProducts w)) w).

(** *** Quantity selector of a product card *)

Definition clamp (quantity maxQuantity : Z) : Z :=
  Z.min (Z.max quantity 1) maxQuantity.

Definition maxQuantity (pid : string) (w : world) : Z :=
  or_number (stockQuantity <$> find_product pid (featuredProducts w)) 1.

Definition updateQuantity (pid : string) (delta : Z) : act unit :=
  modify (fun w =>
    let current := or_number (productQuantities w !! pid) 1 in
    let newQuantity := clamp (current + delta) (maxQuantity pid w) in
    set_productQuantities (<[pid := newQuantity]> (productQuantities w)) w).

Definition setQuantity (pid : string) (quantity : Z) : act unit :=
  modify (fun w =>
    let validQuantity := clamp quantity (maxQuantity pid w) in
    set_productQuantities (<[pid := validQuantity]> (productQuantities w)) w).

(** *** Transport *)

(** [fetch('/api/products/${productId}/stock', { method: 'PATCH',
    body: JSON.stringify({ quantityChange }) })]: the request is
    recorded, then lost or served by the route handler. *)
Definition fetch_stock (pid : string) (quantityChange : Z)
  : act (response StockRoute.payload) :=
  fun w =>
    let w := set_requests (requests w ++ [(pid, quantityChange)]) w in
    match net w with
    | true :: rest => (set_net rest w, inr "Failed to fetch")
    | lnk =>
        let '(db, r) :=
          run (StockRoute.PATCH pid
                 (Some (StockRoute.Body (JNum quantityChange) JUndefined)))
              (server w) in
        (set_server db (set_net (tail lnk) w), inl r)
    end.

(** [fetch('/api/products/${productId}')].  The GET route is not among
    the sources; its reply is read here as the product's row, of which
    the caller uses [stockQuantity] only. *)
Definition fetch_product (pid : string) : act (option Z) :=
  fun w =>
    match net w with
    | true :: rest => (set_net rest w, inr "Failed to fetch")
    | lnk => (set_net (tail lnk) w, inl (StockRoute.stock_of (server w) pid))
    end.

(** *** Cart controller *)

Definition updateProductStock (pid : string) (quantityChange : Z)
  : act (response StockRoute.payload) :=
  try_catch
    (let* response := fetch_stock pid quantityChange in
     if negb (ok response) then
       throw (or_string (message response) "Failed to update stock")
     else
       match StockRoute.newStock response with
       | Some newStock => setStockQuantity pid newStock ;; ret response
       | None => throw "Cannot read properties of undefined (reading 'newStock')"
       end)
    (fun error => console_error "Failed to update stock:" ;; throw error).

Definition refreshProduct (pid : string) : act unit :=
  try_catch
    (let* reply := fetch_product pid in
     match reply with
     | Some stock => setStockQuantity pid stock
     | None => ret tt
     end)
    (fun error => console_error "Failed to refresh product:").

Definition addToCart (product : Product) : act unit :=
  let* w := get in
  let quantity := or_number (productQuantities w !! id product) 1 in
  if stockQuantity product <? quantity then
    toast_error ("Only " +:+ pretty (stockQuantity product) +:+ " items available in stock")
  else if stockQuantity product <=? 0 then
    toast_error "This product is out of stock"
  else
    let* currentCart := readCart in
    let commit (quantityChange : Z) (updatedCart : list CartItem) : act unit :=
      try_catch
        (updateProductStock (id product) (- quantityChange) ;;
         writeCart updatedCart ;;
         setCartItems updatedCart ;;
         setShowCartPreview true)
        (fun error =>
           toast_error (or_string error "Failed to update stock. Please try again.")) in
    match list_find (fun item => productId item = id product) currentCart with
    | Some (existingItemIndex, existingItem) =>
        let newQuantity := HomePage.quantity existingItem + quantity in
        if stockQuantity product <? newQuantity then
          toast_error ("Cannot add more. Only " +:+ pretty (stockQuantity product)
                       +:+ " items available in stock")
        else
          let updatedCart :=
            imap (fun index item =>
                    if decide (index = existingItemIndex)
                    then MkCartItem (productId item) (item_productName item)
                                    (item_price item) (item_imageURL item)
                                    newQuantity (stockQuantity product - quantity)
                    else item)
                 currentCart in
          toast_success "Updated quantity in cart" ;;
          commit quantity updatedCart
    | None =>
        let newItem :=
          MkCartItem (id product) (productName product) (price product)
                     (imageURL product) quantity (stockQuantity product - quantity) in
        let updatedCart := currentCart ++ [newItem] in
        toast_success "Added to cart" ;;
        commit quantity updatedCart
    end.

Definition updateCartQuantity (pid : string) (delta : Z) : act unit :=
  let* w := get in
  match find_item pid (cartItems w) with
  | None => ret tt
  | Some item =>
      match find_product pid (featuredProducts w) with
      | None =>
          (* the search repeated after the refresh runs on the list of
             the same render, in which the product is still missing *)
          refreshProduct pid ;;
          toast_error "Product not found"
      | Some currentProduct =>
          let oldQuantity := quantity item in
          let availableStock := stockQuantity currentProduct in
          let finish (newQuantity : Z) : act unit :=
            let updated :=
              map (fun cartItem =>
                     if decide (productId cartItem = pid)
                     then MkCartItem (productId cartItem) (item_productName cartItem)
                                     (item_price cartItem) (item_imageURL cartItem)
                                     newQuantity
                                     (availableStock - (newQuantity - oldQuantity))
                     else cartItem)
                  (cartItems w) in
            try_catch
              (let stockChange := delta in
               updateProductStock pid (- stockChange) ;;
               writeCart updated ;;
               setCartItems updated)
              (fun error =>
                 toast_error (or_string error "Failed to update stock. Please try again.")) in
          let newQuantity := oldQuantity + delta in
          if 0 <? delta then
            if availableStock <? delta then
              toast_error ("Only " +:+ pretty availableStock +:+ " items available in stock")
            else finish (Z.min newQuantity (oldQuantity + availableStock))
          else finish (Z.max newQuantity 1)
      end
  end.

Definition removeFromCart (pid : string) : act unit :=
  let* w := get in
  match find_item pid (cartItems w) with
  | None => ret tt
  | Some item =>
      let quantityToRestore := quantity item in
      let updated :=
        filter (fun cartItem => productId cartItem ≠ pid) (cartItems w) in
      try_catch
        (updateProductStock pid quantityToRestore ;;
         writeCart updated ;;
         setCartItems updated ;;
         toast_success "Removed from cart")
        (fun error =>
           toast_error (or_string error "Failed to restore stock. Please try again."))
  end.

(** The restores are started in the order of the cart and each handles
    its own failure; they are served here one after the other. *)
Definition clearCart : act unit :=
  let* w := get in
  for_each
    (fun item =>
       try_catch
         (updateProductStock (productId item) (quantity item) ;; ret tt)
         (fun error => console_error ("Failed to restore stock for " +:+ productId item +:+ ":")))
    (cartItems w) ;;
  writeCart [] ;;
  setCartItems [] ;;
  toast_success "Cart cleared".

(** *** Totals of the cart preview *)

(** The value of the [cartTotals] memo. *)
Record totals : Type := Totals {
  subtotal : Z;
  shipping : Z;
  total : Z;
  totalItems : Z
}.

Definition cartTotals (w : world) : totals :=
  let subtotal :=
    fold_left (fun sum item => sum + item_price item * quantity item) (cartItems w) 0 in
  let shipping := if subtotal =? 0 then 0 else if 500 <=? subtotal then 0 else 20 in
  let total := subtotal + shipping in
  let totalItems := fold_left (fun sum item => sum + quantity item) (cartItems w) 0 in
  Totals subtotal shipping total totalItems.

(** *** What the page enables *)

(** The hint "Add GH₵ ... more for free shipping" of the preview. *)
Definition free_shipping_hint (w : world) : bool :=
  (0 <? subtotal (cartTotals w)) && (subtotal (cartTotals w) <? 500).

(** [disabled] of the plus button of a cart line. *)
Definition plus_disabled (item : CartItem) (w : world) : bool :=
  match find_product (productId item) (featuredProducts w) with
  | Some product => stockQuantity product <=? quantity item
  | None => true
  end.

(** *** Category icons *)

(** [s.includes(search)] *)
Fixpoint includes (s search : string) : bool :=
  String.prefix search s ||
  match s with
  | EmptyString => false
  | String _ s' => includes s' search
  end.

(** The chain of tests of [getCategoryIcon] on the lowered name. *)
Definition iconOf (name : string) : string :=
  if includes name "electronic" || includes name "phone" || includes name "computer" then "📱"
  else if includes name "fashion" || includes name "clothing" || includes name "cloth" then "👔"
  else if includes name "food" || includes name "grocery" then "🍎"
  else if includes name "home" || includes name "furniture" then "🏠"
  else if includes name "beauty" || includes name "cosmetic" then "💄"
  else if includes name "sport" || includes name "fitness" then "⚽"
  else if includes name "book" || includes name "education" then "📚"
  else if includes name "toy" || includes name "kid" then "🧸"
  else if includes name "health" || includes name "medical" then "⚕️"
  else if includes name "automotive" || includes name "car" then "🚗"
  else "🏷️".

Section CategoryIcon.

(** [String.prototype.toLowerCase]. *)
Variable toLowerCase : string -> string.

Definition getCategoryIcon (categoryName : string) : string :=
  let name := toLowerCase categoryName in
  iconOf name.

End CategoryIcon.

End HomePage.

(** ** The vendor login page *)

Module VendorLoginPage.

(** The [form] state: both fields are strings, empty until typed in. *)
Record form : Type := Form {
  identifier : string;
  password : string
}.

(** What [handleSubmit] reads or writes: the [loading] flag, the entry
    ["gomart:user"] of the browser's storage, the toasts shown and the
    route the router was sent to. *)
Record page : Type := Page {
  loading : bool;
  storage : option VendorLogin.payload;
  toasts : list HomePage.toast;
  route : option string
}.

Definition setLoading (b : bool) (p : page) : page :=
  Page b (storage p) (toasts p) (route p).

Definition setItem (u : VendorLogin.payload) (p : page) : page :=
  Page (loading p) (Some u) (toasts p) (route p).

Definition toast_error (msg : string) (p : page) : page :=
  Page (loading p) (storage p) (toasts p ++ [HomePage.ToastError msg]) (route p).

Definition toast_success (msg : string) (p : page) : page :=
  Page (loading p) (storage p) (toasts p ++ [HomePage.ToastSuccess msg]) (route p).

Definition push (target : string) (p : page) : page :=
  Page (loading p) (storage p) (toasts p) (Some target).

Section Submit.

Variables trim toLowerCase : string -> string.

(** [handleSubmit]: [vendors] is the table the login route reads, [lost]
    says that the [fetch] throws. *)
Definition handleSubmit (vendors : list VendorLogin.vendor) (lost : bool)
           (f : form) (p : page) : page :=
  let p := setLoading true p in
  let p :=
    if lost then
      toast_error (HomePage.or_string "Failed to fetch" "Failed to sign in") p
    else
      let res :=
        VendorLogin.POST trim toLowerCase vendors
          (Some (VendorLogin.Body (Some (identifier f)) (Some (password f)))) in
      if negb (ok res) then
        let err := HomePage.or_string (message res) "Invalid credentials" in
        toast_error (HomePage.or_string err "Failed to sign in") p
      else
        let p :=
          match data res with
          | Some d => setItem (VendorLogin.Payload (VendorLogin.pl_vendor d) "vendor") p
          | None => p
          end in
        push "/ui/vendors/dashboard" (toast_success "Welcome back!" p) in
  setLoading false p.

End Submit.

End VendorLoginPage.

(** ** The vendor dashboard *)

Module Dashboard.

(** The stored user as the dashboard reads it: the object the login page
    stored, and the [rating] column of the vendor when it has one. *)
Record user : Type := User {
  logged : VendorLogin.payload;
  rating : option QArith_base.Q
}.

(** [type VendorStats] *)
Record VendorStats : Type := Stats {
  totalProducts : Z;
  activeProducts : Z;
  totalConversations : Z;
  unreadMessages : Z;
  averageRating : QArith_base.Q
}.

(** A product and a conversation as the replies list them. *)
Record product : Type := Product { isActive : bool }.
Record conversation : Type := Conversation { vendorUnread : Z }.

(** The outcome of a [fetch] followed by [json()]: thrown, a reply that
    is not [ok], or the list under [data], [None] when it is missing. *)
Inductive fetched (A : Type) : Type :=
| Thrown
| NotOk
| Fetched (items : option (list A)).
Arguments Thrown {A}.
Arguments NotOk {A}.
Arguments Fetched {A} _.

(** The state of the page, the toasts, the route pushed and the URLs
    requested.  [stats] is one object: [loadStats] writes into it. *)
Record page : Type := Page {
  mounted : bool;
  loading : bool;
  vendor : option user;
  stats : VendorStats;
  toasts : list HomePage.toast;
  route : option string;
  requested : list string
}.

(** The values of the [useState] calls. *)
Definition initial : page :=
  Page false true None (Stats 0 0 0 0 (QArith_base.Qmake 0 1)) [] None [].

Definition setMounted (b : bool) (p : page) : page :=
  Page b (loading p) (vendor p) (stats p) (toasts p) (route p) (requested p).
Definition setLoading (b : bool) (p : page) : page :=
  Page (mounted p) b (vendor p) (stats p) (toasts p) (route p) (requested p).
Definition setVendor (u : user) (p : page) : page :=
  Page (mounted p) (loading p) (Some u) (stats p) (toasts p) (route p) (requested p).
Definition setStats (x : VendorStats) (p : page) : page :=
  Page (mounted p) (loading p) (vendor p) x (toasts p) (route p) (requested p).
Definition toast_error (msg : string) (p : page) : page :=
  Page (mounted p) (loading p) (vendor p) (stats p)
       (toasts p ++ [HomePage.ToastError msg]) (route p) (requested p).
Definition push (target : string) (p : page) : page :=
  Page (mounted p) (loading p) (vendor p) (stats p) (toasts p) (Some target) (requested p).
Definition request (url : string) (p : page) : page :=
  Page (mounted p) (loading p) (vendor p) (stats p) (toasts p) (route p)
       (requested p ++ [url]).

(** [x || 0] on the rating. *)
Definition rating_or_zero (x : option QArith_base.Q) : QArith_base.Q :=
  match x with
  | Some r => if QArith_base.Qeq_bool r (QArith_base.Qmake 0 1)
              then QArith_base.Qmake 0 1 else r
  | None => QArith_base.Qmake 0 1
  end.

(** [loadStats(vendorId)].  [closure] is the state of the render the
    function was created in, from which it reads [vendor]; the writes go
    to the [stats] object of the page. *)
Definition loadStats (closure : page) (vendorId : string)
           (productsRes : fetched product) (convRes : fetched conversation)
           (p : page) : page :=
  let p := request ("/api/products?vendorId=" +:+ vendorId) p in
  match productsRes with
  | Thrown => setLoading false p
  | _ =>
      let p :=
        match productsRes with
        | Fetched items =>
            let products := default [] items in
            let s := stats p in
            setStats (Stats (Z.of_nat (length products))
                            (Z.of_nat (length (filter (fun x => isActive x = true) products)))
                            (totalConversations s) (unreadMessages s) (averageRating s)) p
        | _ => p
        end in
      let p := request ("/api/conversations?userId=" +:+ vendorId +:+ "&userType=vendor") p in
      match convRes with
      | Thrown => setLoading false p
      | _ =>
          let p :=
            match convRes with
            | Fetched items =>
                let conversations := default [] items in
                let s := stats p in
                setStats (Stats (totalProducts s) (activeProducts s)
                                (Z.of_nat (length conversations))
                                (fold_left (fun sum conv => sum + vendorUnread conv)
                                           conversations 0)
                                (averageRating s)) p
            | _ => p
            end in
          let s := stats p in
          let p :=
            setStats (Stats (totalProducts s) (activeProducts s) (totalConversations s)
                            (unreadMessages s)
                            (rating_or_zero (vendor closure ≫= rating))) p in
          setLoading false p
      end
  end.

(** The effect run on mount.  [stored] is the parsed entry
    ["gomart:user"], [None] when the key is absent. *)
Definition effect (closure : page) (stored : option user)
           (productsRes : fetched product) (convRes : fetched conversation)
           (p : page) : page :=
  let p := setMounted true p in
  match stored with
  | None => push "/ui/vendors/login" (toast_error "Please login as a vendor" p)
  | Some user =>
      if negb (bool_decide (VendorLogin.userType (logged user) = "vendor")) then
        push "/" (toast_error "Access denied. Vendors only." p)
      else
        loadStats closure (VendorLogin.vendor_id (VendorLogin.pl_vendor (logged user)))
                  productsRes convRes (setVendor user p)
  end.

(** The page once mounted: the effect belongs to the first render. *)
Definition mount (stored : option user)
           (productsRes : fetched product) (convRes : fetched conversation) : page :=
  effect initial stored productsRes convRes initial.

(** *** What the page shows *)

Definition spinner (p : page) : bool := negb (mounted p) || loading p.

Definition title (p : page) : string :=
  HomePage.or_string (default "" (VendorLogin.vendorName <$>
                                    (VendorLogin.pl_vendor <$> (logged <$> vendor p))))
                     "Vendor Dashboard".


(** The rating card shows a number only above zero, "N/A" otherwise. *)
Definition rating_shown (p : page) : bool :=
  negb (QArith_base.Qle_bool (averageRating (stats p)) (QArith_base.Qmake 0 1)).

End Dashboard.

(** ** Vocabulary of the statements *)

(** The reply and the table a handler served alone leaves. *)
Definition reply {A} (p : prog A) (db : store) : A := snd (run p db).
Definition after {A} (p : prog A) (db : store) : store := fst (run p db).

(** The stock request the page sends: [{ quantityChange }]. *)
Definition stock_request (quantityChange : Z) : option StockRoute.body :=
  Some (StockRoute.Body (JNum quantityChange) JUndefined).

(** Both handlers have replied and no more than one reply is a success. *)
Definition at_most_one_success {D} (db : store) (p q : prog (response D)) : Prop :=
  ∀ sched db' r1 r2,
    interleave sched db p q = (db', Ret r1, Ret r2) →
    ¬ (ok r1 = true ∧ ok r2 = true).

(** The next [fetch] of the page reaches the server. *)
Definition delivered (w : HomePage.world) : bool :=
  match HomePage.net w with
  | true :: _ => false
  | _ => true
  end.

(** The route accepts the change: the product exists and its stock stays
    at or above zero. *)
Definition accepted (db : store) (pid : string) (quantityChange : Z) : bool :=
  match db !! pid with
  | Some r => 0 <=? row_stockQuantity r + quantityChange
  | None => false
  end.

(** The table after an accepted change. *)
Definition adjusted (db : store) (pid : string) (quantityChange : Z) : store :=
  match db !! pid with
  | Some r => <[pid := Row (row_productName r) (row_stockQuantity r + quantityChange)]> db
  | None => db
  end.

(** The quantity [addToCart] takes from the selector of a product. *)
Definition chosen (w : HomePage.world) (pid : string) : Z :=
  HomePage.or_number (HomePage.productQuantities w !! pid) 1.

(** The request that restores the quantity a line item holds. *)
Definition restore_request (item : HomePage.CartItem) : string * Z :=
  (HomePage.productId item, HomePage.quantity item).

(** The world once a stock request has been sent and its transport entry
    used. *)
Definition sent (pid : string) (quantityChange : Z) (w : HomePage.world)
  : HomePage.world :=
  HomePage.set_net (tail (HomePage.net w))
    (HomePage.set_requests (HomePage.requests w ++ [(pid, quantityChange)]) w).

(** The world after [updateProductStock] returned: the table is adjusted
    and the rendered product shows the new stock. *)
Definition served (pid : string) (quantityChange : Z) (w : HomePage.world)
  : HomePage.world :=
  let db := adjusted (HomePage.server w) pid quantityChange in
  let w1 := HomePage.set_server db (sent pid quantityChange w) in
  HomePage.set_featuredProducts
    (HomePage.with_stock pid (default 0 (StockRoute.stock_of db pid))
                         (HomePage.featuredProducts w1)) w1.

(** The world after [updateProductStock] threw: only the console has a
    new line. *)
Definition unserved (pid : string) (quantityChange : Z) (w : HomePage.world)
  : HomePage.world :=
  let w1 := sent pid quantityChange w in
  HomePage.set_console (HomePage.console w1 ++ ["Failed to update stock:"]) w1.

(** The line item [addToCart] builds for a product not yet in the cart. *)
Definition line (product : HomePage.Product) (q : Z) : HomePage.CartItem :=
  HomePage.MkCartItem (HomePage.id product) (HomePage.productName product)
    (HomePage.price product) (HomePage.imageURL product) q
    (HomePage.stockQuantity product - q).

(** The cart [addToCart] builds when the product is already at index [i]. *)
Definition merged (product : HomePage.Product) (q : Z) (i : nat)
           (existing : HomePage.CartItem) (cart : list HomePage.CartItem)
  : list HomePage.CartItem :=
  imap (fun index item =>
          if decide (index = i)
          then HomePage.MkCartItem (HomePage.productId item) (HomePage.item_productName item)
                 (HomePage.item_price item) (HomePage.item_imageURL item)
                 (HomePage.quantity existing + q) (HomePage.stockQuantity product - q)
          else item) cart.

(** What [clearCart] does for one line item: the restore with its own
    failure handler. *)
Definition restore (item : HomePage.CartItem) : HomePage.act unit :=
  HomePage.try_catch
    (HomePage.bind
       (HomePage.updateProductStock (HomePage.productId item) (HomePage.quantity item))
       (fun _ => HomePage.ret tt))
    (fun error =>
       HomePage.console_error
         ("Failed to restore stock for " +:+ HomePage.productId item +:+ ":")).

(** A second session sees the table as the first one left it. *)
Definition arrives_after (first second : HomePage.world) : HomePage.world :=
  HomePage.set_server (HomePage.server first) second.

(** The table with a single unit of the product left. *)
Definition last_unit : store := {["p1" := Row "Kente" 1]}.

(** The stock request of a session that adds one unit to its cart. *)
Definition take_one : prog (response StockRoute.payload) :=
  StockRoute.PATCH "p1" (stock_request (-1)).

(** A world of the page for the examples: one product, ten in stock. *)
Definition kente : HomePage.Product :=
  HomePage.MkProduct "p1" "Kente" 50 None 10.

Definition shop : HomePage.world :=
  HomePage.World {["p1" := Row "Kente" 10]} [] [] [] [kente] ∅ [] false [] [].

(** A cart holding two units of A and three of B, as stored and as the
    page shows it; ten of each are in stock. *)
Definition cart_AB : list HomePage.CartItem :=
  [HomePage.MkCartItem "A" "Adinkra cloth" 40 None 2 10;
   HomePage.MkCartItem "B" "Bolga basket" 25 None 3 10].

Definition shop_AB : HomePage.world :=
  HomePage.World {["A" := Row "Adinkra cloth" 10; "B" := Row "Bolga basket" 10]}
                 [] [] cart_AB [] ∅ cart_AB false [] [].

(** The product as the page currently renders it. *)
Definition rendered (pid : string) (w : HomePage.world) : option HomePage.Product :=
  HomePage.find_product pid (HomePage.featuredProducts w).

(** A click on "Add to cart" of the rendered product. *)
Definition click_add (pid : string) (w : HomePage.world) : HomePage.world :=
  match rendered pid w with
  | Some p => HomePage.exec (HomePage.addToCart p) w
  | None => w
  end.

(** The quantity of the product the cart holds. *)
Definition held (pid : string) (w : HomePage.world) : Z :=
  default 0 (HomePage.quantity <$> HomePage.find_item pid (HomePage.localStorage w)).






(** Stock and cart of one client are in step for a product: the page
    shows the stored cart, with one line per product, and the stock on the
    server, which the page renders, plus the quantity held is [total]. *)
Definition in_step (pid : string) (total : Z) (w : HomePage.world) : Prop :=
  HomePage.cartItems w = HomePage.localStorage w ∧
  NoDup (HomePage.productId <$> HomePage.localStorage w) ∧
  ∃ s, StockRoute.stock_of (HomePage.server w) pid = Some s ∧
       0 <= s ∧ s + held pid w = total ∧
       ∀ p, rendered pid w = Some p → HomePage.stockQuantity p = s.

(** Two vendors for the examples, the second one with a closed account. *)
Definition ama : VendorLogin.vendor :=
  VendorLogin.Vendor "v1" "Ama Stores" "ama@shop.gh" "0240000000" true false.

Definition kofi : VendorLogin.vendor :=
  VendorLogin.Vendor "v2" "Kofi Crafts" "kofi@shop.gh" "0200000000" false true.

(** The login page and the form before anything was typed or stored. *)
Definition fresh_login : VendorLoginPage.page :=
  VendorLoginPage.Page false None [] None.

(** The login page submitted against a table, with the ASCII instances of
    the string functions. *)
Definition submit (vendors : list VendorLogin.vendor) (lost : bool)
           (f : VendorLoginPage.form) (p : VendorLoginPage.page)
  : VendorLoginPage.page :=
  VendorLoginPage.handleSubmit VendorLogin.ascii_trim VendorLogin.ascii_toLowerCase
                               vendors lost f p.

(** ** The stock-adjustment route *)

Section StockRouteFacts.
Import StockRoute.

Lemma run_PATCH_num (db : store) (id : string) (delta : Z) (op : jsval) :
  run (PATCH id (Some (Body (JNum delta) op))) db =
  match db !! id with
  | None => (db, not_found)
  | Some p =>
      if row_stockQuantity p + delta <? 0
      then (db, insufficient (row_stockQuantity p) delta)
      else (<[id := Row (row_productName p) (row_stockQuantity p + delta)]> db,
            success (UpdatedProduct id (row_productName p) (row_stockQuantity p + delta))
                    (row_stockQuantity p) (row_stockQuantity p + delta) delta)
  end.
Proof.
  cbn. destruct (db !! id) as [p|] eqn:Hp; cbn; [|reflexivity].
  destruct (row_stockQuantity p + delta <? 0); cbn; [reflexivity|].
  rewrite Hp. reflexivity.
Qed.

Lemma run_PATCH_missing (db : store) (id : string) (q op : jsval) :
  q = JUndefined ∨ q = JNull →
  run (PATCH id (Some (Body q op))) db = (db, required).
Proof. intros [-> | ->]; reflexivity. Qed.

(** C1: for every product identifier and signed delta the route answers
    404 when the product does not exist, the insufficient-stock 400 when
    [current + delta < 0] (in both cases the table is left as it was),
    and otherwise stores [current + delta] for that product, leaves the
    other products alone and returns the previous and the new stock. *)
Theorem PATCH_stock_adjustment (db : store) (id : string) (delta : Z) (op : jsval) :
  let request := Some (Body (JNum delta) op) in
  let r := reply (PATCH id request) db in
  let db' := after (PATCH id request) db in
  (db !! id = None → code r = 404 ∧ db' = db) ∧
  (∀ p, db !! id = Some p → row_stockQuantity p + delta < 0 →
        is_insufficient_stock r ∧ db' = db) ∧
  (∀ p, db !! id = Some p → 0 <= row_stockQuantity p + delta →
        code r = 200 ∧
        previousStock r = Some (row_stockQuantity p) ∧
        newStock r = Some (row_stockQuantity p + delta) ∧
        stock_of db' id = Some (row_stockQuantity p + delta) ∧
        ∀ id', id' ≠ id → db' !! id' = db !! id').
Proof.
  intros request r db'. subst request r db'.
  unfold reply, after. rewrite run_PATCH_num.
  split; [|split].
  - intros ->. split; reflexivity.
  - intros p -> Hneg.
    apply Z.ltb_lt in Hneg. rewrite Hneg. repeat split.
  - intros p -> Hpos.
    apply Z.ltb_ge in Hpos. rewrite Hpos. cbn.
    repeat split.
    + unfold stock_of. rewrite lookup_insert_eq. reflexivity.
    + intros id' Hne. apply lookup_insert_ne. congruence.
Qed.

Lemma PATCH_stock_adjustment_witness :
  let db : store := {["p1" := Row "Kente" 10]} in
  let r := reply (PATCH "p1" (Some (Body (JNum (-3)) JUndefined))) db in
  code r = 200 ∧ previousStock r = Some 10 ∧ newStock r = Some 7.
Proof.
  intros db r.
  destruct (PATCH_stock_adjustment db "p1" (-3) JUndefined) as (_ & _ & H).
  destruct (H (Row "Kente" 10)) as (H1 & H2 & H3 & _).
  - reflexivity.
  - cbn. lia.
  - exact (conj H1 (conj H2 H3)).
Defined.

(** C3: the stock column stays non-negative across the route, whatever
    the request and whether it is accepted or rejected. *)
Theorem PATCH_keeps_stock_nonneg (db : store) (id : string) (request : option body) :
  stock_nonneg db → stock_nonneg (after (PATCH id request) db).
Proof.
  intros Hdb. unfold after.
  destruct request as [[q op]|]; [|exact Hdb].
  destruct q as [| |delta]; [exact Hdb|exact Hdb|].
  rewrite run_PATCH_num.
  destruct (db !! id) as [p|] eqn:Hp; [|exact Hdb].
  destruct (row_stockQuantity p + delta <? 0) eqn:Hlt; [exact Hdb|].
  cbn. apply map_Forall_insert_2; [|exact Hdb].
  cbn. apply Z.ltb_ge in Hlt. exact Hlt.
Qed.

Lemma PATCH_keeps_stock_nonneg_witness :
  stock_nonneg (after (PATCH "p1" (stock_request (-3))) {["p1" := Row "Kente" 10]}).
Proof.
  apply PATCH_keeps_stock_nonneg.
  apply map_Forall_singleton. cbn. lia.
Defined.

(** C10: the route answers with its validation error exactly when
    [quantityChange] is undefined or null; a change of 0 on an existing
    product with non-negative stock succeeds with the new stock equal to
    the previous one and the table unchanged; the [operation] field does
    not influence the outcome. *)
Theorem PATCH_validation (db : store) (id : string) (b : body) :
  (is_validation_error (reply (PATCH id (Some b)) db)
     ↔ quantityChange b = JUndefined ∨ quantityChange b = JNull) ∧
  (∀ p op, db !! id = Some p → 0 <= row_stockQuantity p →
     let r := reply (PATCH id (Some (Body (JNum 0) op))) db in
     code r = 200 ∧
     newStock r = previousStock r ∧
     newStock r = Some (row_stockQuantity p) ∧
     after (PATCH id (Some (Body (JNum 0) op))) db = db) ∧
  (∀ op, run (PATCH id (Some (Body (quantityChange b) op))) db
         = run (PATCH id (Some b)) db).
Proof.
  split; [|split].
  - destruct b as [q op]. cbn [quantityChange]. split.
    + intros [Hc Hm]. destruct q as [| |delta]; [by left|by right|].
      exfalso. unfold reply in Hm. rewrite run_PATCH_num in Hm.
      destruct (db !! id) as [p|]; [|discriminate Hm].
      destruct (row_stockQuantity p + delta <? 0); discriminate Hm.
    + intros H. unfold reply. rewrite (run_PATCH_missing _ _ _ _ H).
      split; reflexivity.
  - intros p op Hp Hpos r. subst r. unfold reply, after.
    rewrite run_PATCH_num, Hp, Z.add_0_r.
    apply Z.ltb_ge in Hpos. rewrite Hpos. cbn.
    repeat split. apply insert_id. rewrite Hp. by destruct p.
  - intros op. destruct b as [q op']. cbn [quantityChange].
    destruct q as [| |delta]; [reflexivity|reflexivity|].
    rewrite !run_PATCH_num. reflexivity.
Qed.

Lemma PATCH_validation_witness :
  let db : store := {["p1" := Row "Kente" 10]} in
  let r := reply (PATCH "p1" (Some (Body (JNum 0) (JNum 7)))) db in
  code r = 200 ∧ newStock r = previousStock r.
Proof.
  intros db r.
  destruct (PATCH_validation db "p1" (Body (JNum 0) JNull)) as (_ & H & _).
  destruct (H (Row "Kente" 10) (JNum 7)) as (H1 & H2 & _).
  - reflexivity.
  - cbn. lia.
  - exact (conj H1 H2).
Defined.

End StockRouteFacts.

(** ** The vendor login route *)

Section VendorLoginFacts.
Import VendorLogin.

Variables trim toLowerCase : string -> string.

Lemma falsy_text (s : string) : s ≠ "" → falsy (Some s) = false.
Proof. intros H. cbn. by apply bool_decide_eq_false. Qed.

Lemma POST_present (vendors : list vendor) (ident pw : string) :
  ident ≠ "" → pw ≠ "" →
  POST trim toLowerCase vendors (Some (Body (Some ident) (Some pw))) =
  match findFirst vendors (toLowerCase (trim ident)) (trim ident) with
  | None => invalid
  | Some v => if isActive v then success v else inactive
  end.
Proof.
  intros Hi Hp. unfold POST. cbn [identifier password].
  rewrite (falsy_text _ Hi), (falsy_text _ Hp). cbn.
  destruct (findFirst _ _ _) as [v|]; [|reflexivity].
  by destruct (isActive v).
Qed.

(** C7: with an identifier and a password that are both present, the
    login succeeds and returns the vendor as soon as the lookup by
    e-mail or phone number finds a vendor whose account is active; the
    reply does not depend on the password, and a success is returned in
    no other case. *)
Theorem POST_password_not_verified (vendors : list vendor) (ident pw : string) :
  ident ≠ "" → pw ≠ "" →
  let r := POST trim toLowerCase vendors (Some (Body (Some ident) (Some pw))) in
  (∀ v, findFirst vendors (toLowerCase (trim ident)) (trim ident) = Some v →
        isActive v = true → r = success v) ∧
  (∀ pw', pw' ≠ "" →
        POST trim toLowerCase vendors (Some (Body (Some ident) (Some pw'))) = r) ∧
  (code r = 200 ↔
     ∃ v, findFirst vendors (toLowerCase (trim ident)) (trim ident) = Some v
          ∧ isActive v = true).
Proof.
  intros Hi Hp r. subst r. rewrite (POST_present _ _ _ Hi Hp).
  split; [|split].
  - intros v -> ->. reflexivity.
  - intros pw' Hp'. apply POST_present; assumption.
  - destruct (findFirst _ _ _) as [v|].
    + destruct (isActive v) eqn:Ha; cbn.
      * split; [intros _; by exists v | reflexivity].
      * split; [discriminate | intros (v' & [= <-] & Hv'); congruence].
    + cbn. split; [discriminate | intros (v' & [=] & _)].
Qed.

End VendorLoginFacts.

Lemma POST_password_not_verified_witness :
  let ama := VendorLogin.Vendor "v1" "Ama Stores" "ama@shop.gh" "0240000000" true false in
  VendorLogin.POST VendorLogin.ascii_trim VendorLogin.ascii_toLowerCase [ama]
    (Some (VendorLogin.Body (Some " Ama@Shop.gh ") (Some "not the password")))
  = VendorLogin.success ama.
Proof.
  intros ama.
  destruct (POST_password_not_verified VendorLogin.ascii_trim VendorLogin.ascii_toLowerCase
              [ama] " Ama@Shop.gh " "not the password") as (H & _ & _).
  - discriminate.
  - discriminate.
  - apply H; reflexivity.
Defined.
Section HomePageFacts.
Import HomePage.

Lemma fetch_stock_lost (w : world) (pid : string) (qc : Z) :
  delivered w = false →
  fetch_stock pid qc w = (sent pid qc w, inr "Failed to fetch").
Proof.
  unfold delivered, fetch_stock, sent. cbn [net set_requests].
  destruct (net w) as [|[] rest]; [discriminate| |discriminate].
  reflexivity.
Qed.

Lemma fetch_stock_delivered (w : world) (pid : string) (qc : Z) :
  delivered w = true →
  fetch_stock pid qc w =
  (set_server (after (StockRoute.PATCH pid (stock_request qc)) (server w)) (sent pid qc w),
   inl (reply (StockRoute.PATCH pid (stock_request qc)) (server w))).
Proof.
  unfold delivered, fetch_stock, sent, after, reply, stock_request.
  cbn [net server set_requests].
  destruct (net w) as [|[] rest]; [|discriminate|];
    intros _; destruct (run _ _); reflexivity.
Qed.

Lemma updateProductStock_accepted (w : world) (pid : string) (qc : Z) :
  delivered w = true → accepted (server w) pid qc = true →
  ∃ r, updateProductStock pid qc w = (served pid qc w, inl r).
Proof.
  intros Hd Ha. unfold accepted in Ha.
  destruct (server w !! pid) as [p|] eqn:Hp; [|discriminate].
  eexists.
  unfold updateProductStock, try_catch, bind.
  rewrite (fetch_stock_delivered _ _ _ Hd).
  unfold reply, after, stock_request. rewrite run_PATCH_num, Hp.
  apply Z.leb_le in Ha. apply Z.ltb_ge in Ha. rewrite Ha. cbn.
  unfold served, adjusted, StockRoute.stock_of. rewrite Hp, lookup_insert_eq. cbn.
  reflexivity.
Qed.

Lemma updateProductStock_failed (w : world) (pid : string) (qc : Z) :
  delivered w && accepted (server w) pid qc = false →
  ∃ e, e ≠ "" ∧ updateProductStock pid qc w = (unserved pid qc w, inr e).
Proof.
  intros H. unfold updateProductStock, try_catch, bind.
  destruct (delivered w) eqn:Hd.
  - cbn in H. rewrite (fetch_stock_delivered _ _ _ Hd).
    unfold reply, after, stock_request. rewrite run_PATCH_num.
    unfold accepted in H.
    destruct (server w !! pid) as [p|] eqn:Hp.
    + apply Z.leb_gt in H. apply Z.ltb_lt in H. rewrite H. cbn.
      eexists. split; [|destruct w; reflexivity]. discriminate.
    + cbn. eexists. split; [|destruct w; reflexivity]. discriminate.
  - rewrite (fetch_stock_lost _ _ _ Hd). cbn.
    eexists. split; [|reflexivity]. discriminate.
Qed.


(** Equations of the actions. *)
Lemma bind_get {B} (k : world → act B) (w : world) : bind get k w = k w w.
Proof. reflexivity. Qed.

Lemma bind_readCart {B} (k : list CartItem → act B) (w : world) :
  bind readCart k w = k (localStorage w) w.
Proof. reflexivity. Qed.

Lemma bind_modify {B} (f : world → world) (k : unit → act B) (w : world) :
  bind (modify f) k w = k tt (f w).
Proof. reflexivity. Qed.

Lemma try_update_accepted (w : world) (pid : string) (qc : Z)
      (next : act unit) (h : string → act unit) :
  delivered w = true → accepted (server w) pid qc = true →
  try_catch (bind (updateProductStock pid qc) (λ _, next)) h w
  = try_catch next h (served pid qc w).
Proof.
  intros Hd Ha. destruct (updateProductStock_accepted w pid qc Hd Ha) as [r Hr].
  unfold try_catch, bind. rewrite Hr. reflexivity.
Qed.

Lemma try_update_failed (w : world) (pid : string) (qc : Z)
      (next : act unit) (fallback : string) :
  delivered w && accepted (server w) pid qc = false →
  ∃ e, try_catch (bind (updateProductStock pid qc) (λ _, next))
                 (λ error, toast_error (or_string error fallback)) w
       = (set_toasts (toasts w ++ [ToastError e]) (unserved pid qc w), inl tt).
Proof.
  intros H. destruct (updateProductStock_failed w pid qc H) as (e & He & Hr).
  exists e. unfold try_catch, bind. rewrite Hr.
  unfold or_string. rewrite bool_decide_eq_false_2 by exact He.
  reflexivity.
Qed.


Lemma commit_accepted (w : world) (pid : string) (qc : Z) (cart : list CartItem)
      (h : string → act unit) :
  delivered w = true → accepted (server w) pid qc = true →
  try_catch
    (bind (updateProductStock pid qc)
       (λ _, bind (writeCart cart)
               (λ _, bind (setCartItems cart) (λ _, setShowCartPreview true)))) h w
  = (set_showCartPreview true
       (set_cartItems cart (set_cartItems cart (set_localStorage cart (served pid qc w)))),
     inl tt).
Proof.
  intros Hd Ha. rewrite (try_update_accepted _ _ _ _ _ Hd Ha). reflexivity.
Qed.

Lemma addToCart_over (w : world) (product : Product) :
  stockQuantity product < chosen w (id product) →
  exec (addToCart product) w =
  set_toasts (toasts w ++ [ToastError ("Only " +:+ pretty (stockQuantity product)
                                        +:+ " items available in stock")]) w.
Proof.
  intros H. apply Z.ltb_lt in H.
  unfold exec, addToCart. rewrite bind_get. cbv zeta.
  fold (chosen w (id product)). rewrite H. reflexivity.
Qed.

Lemma addToCart_out (w : world) (product : Product) :
  chosen w (id product) <= stockQuantity product → stockQuantity product <= 0 →
  exec (addToCart product) w =
  set_toasts (toasts w ++ [ToastError "This product is out of stock"]) w.
Proof.
  intros H1 H2. apply Z.ltb_ge in H1. apply Z.leb_le in H2.
  unfold exec, addToCart. rewrite bind_get. cbv zeta.
  fold (chosen w (id product)). rewrite H1, H2. reflexivity.
Qed.

Lemma addToCart_full (w : world) (product : Product) (i : nat) (existing : CartItem) :
  chosen w (id product) <= stockQuantity product → 0 < stockQuantity product →
  list_find (λ item, productId item = id product) (localStorage w) = Some (i, existing) →
  stockQuantity product < quantity existing + chosen w (id product) →
  exec (addToCart product) w =
  set_toasts (toasts w ++ [ToastError ("Cannot add more. Only "
                                        +:+ pretty (stockQuantity product)
                                        +:+ " items available in stock")]) w.
Proof.
  intros H1 H2 Hf H3. apply Z.ltb_ge in H1. apply Z.leb_gt in H2. apply Z.ltb_lt in H3.
  unfold exec, addToCart. rewrite bind_get. cbv zeta.
  fold (chosen w (id product)). rewrite H1, H2, bind_readCart, Hf, H3. reflexivity.
Qed.

Lemma addToCart_merge (w : world) (product : Product) (i : nat) (existing : CartItem) :
  chosen w (id product) <= stockQuantity product → 0 < stockQuantity product →
  list_find (λ item, productId item = id product) (localStorage w) = Some (i, existing) →
  quantity existing + chosen w (id product) <= stockQuantity product →
  let w1 := set_toasts (toasts w ++ [ToastSuccess "Updated quantity in cart"]) w in
  let cart := merged product (chosen w (id product)) i existing (localStorage w) in
  (delivered w = true → accepted (server w) (id product) (- chosen w (id product)) = true →
     exec (addToCart product) w =
     set_showCartPreview true
       (set_cartItems cart (set_cartItems cart (set_localStorage cart
          (served (id product) (- chosen w (id product)) w1))))) ∧
  (delivered w && accepted (server w) (id product) (- chosen w (id product)) = false →
     ∃ e, exec (addToCart product) w =
          set_toasts (toasts w1 ++ [ToastError e])
                     (unserved (id product) (- chosen w (id product)) w1)).
Proof.
  intros H1 H2 Hf H3 w1 cart.
  apply Z.ltb_ge in H1. apply Z.leb_gt in H2. apply Z.ltb_ge in H3.
  unfold exec, addToCart. rewrite bind_get. cbv zeta.
  fold (chosen w (id product)). rewrite H1, H2, bind_readCart, Hf, H3.
  unfold toast_success. rewrite bind_modify. fold w1. split.
  - intros Hd Ha. rewrite commit_accepted by assumption. reflexivity.
  - intros Hfail.
    destruct (try_update_failed w1 (id product) (- chosen w (id product))
                (bind (writeCart cart)
                   (λ _, bind (setCartItems cart) (λ _, setShowCartPreview true)))
                "Failed to update stock. Please try again." Hfail) as [e He].
    exists e. unfold cart, merged in He. rewrite He. reflexivity.
Qed.

Lemma addToCart_new (w : world) (product : Product) :
  chosen w (id product) <= stockQuantity product → 0 < stockQuantity product →
  list_find (λ item, productId item = id product) (localStorage w) = None →
  let w1 := set_toasts (toasts w ++ [ToastSuccess "Added to cart"]) w in
  let cart := localStorage w ++ [line product (chosen w (id product))] in
  (delivered w = true → accepted (server w) (id product) (- chosen w (id product)) = true →
     exec (addToCart product) w =
     set_showCartPreview true
       (set_cartItems cart (set_cartItems cart (set_localStorage cart
          (served (id product) (- chosen w (id product)) w1))))) ∧
  (delivered w && accepted (server w) (id product) (- chosen w (id product)) = false →
     ∃ e, exec (addToCart product) w =
          set_toasts (toasts w1 ++ [ToastError e])
                     (unserved (id product) (- chosen w (id product)) w1)).
Proof.
  intros H1 H2 Hf w1 cart.
  apply Z.ltb_ge in H1. apply Z.leb_gt in H2.
  unfold exec, addToCart. rewrite bind_get. cbv zeta.
  fold (chosen w (id product)). rewrite H1, H2, bind_readCart, Hf.
  unfold toast_success. rewrite bind_modify. fold w1. split.
  - intros Hd Ha. rewrite commit_accepted by assumption. reflexivity.
  - intros Hfail.
    destruct (try_update_failed w1 (id product) (- chosen w (id product))
                (bind (writeCart cart)
                   (λ _, bind (setCartItems cart) (λ _, setShowCartPreview true)))
                "Failed to update stock. Please try again." Hfail) as [e He].
    exists e. unfold cart, line in He. rewrite He. reflexivity.
Qed.

(** The three ways [addToCart] can end. *)
Lemma addToCart_cases (w : world) (product : Product) :
  let q := chosen w (id product) in
  let w' := exec (addToCart product) w in
  (∃ msg, w' = set_toasts (toasts w ++ [ToastError msg]) w) ∨
  (∃ t, let w1 := set_toasts (toasts w ++ [ToastSuccess t]) w in
     (delivered w && accepted (server w) (id product) (- q) = false ∧
      ∃ e, w' = set_toasts (toasts w1 ++ [ToastError e]) (unserved (id product) (- q) w1)) ∨
     (delivered w && accepted (server w) (id product) (- q) = true ∧
      ∃ cart, w' = set_showCartPreview true
                     (set_cartItems cart (set_cartItems cart (set_localStorage cart
                        (served (id product) (- q) w1)))))).
Proof.
  intros q w'. subst q w'.
  destruct (Z.lt_ge_cases (stockQuantity product) (chosen w (id product))) as [H1|H1].
  { left. eexists. by apply addToCart_over. }
  destruct (Z.le_gt_cases (stockQuantity product) 0) as [H2|H2].
  { left. eexists. by apply addToCart_out. }
  destruct (list_find (λ item, productId item = id product) (localStorage w))
    as [[i existing]|] eqn:Hf.
  - destruct (Z.lt_ge_cases (stockQuantity product)
                (quantity existing + chosen w (id product))) as [H3|H3].
    { left. eexists. by eapply addToCart_full. }
    destruct (addToCart_merge w product i existing H1 H2 Hf H3) as [Hok Hko].
    right. eexists.
    destruct (delivered w && accepted (server w) (id product) (- chosen w (id product)))
      eqn:Hcall.
    + right. split; [reflexivity|]. apply andb_prop in Hcall as [Hd Ha].
      eexists. by apply Hok.
    + left. split; [reflexivity|]. by apply Hko.
  - destruct (addToCart_new w product H1 H2 Hf) as [Hok Hko].
    right. eexists.
    destruct (delivered w && accepted (server w) (id product) (- chosen w (id product)))
      eqn:Hcall.
    + right. split; [reflexivity|]. apply andb_prop in Hcall as [Hd Ha].
      eexists. by apply Hok.
    + left. split; [reflexivity|]. by apply Hko.
Qed.

Lemma stock_of_adjusted (db : store) (pid : string) (qc s : Z) :
  StockRoute.stock_of db pid = Some s →
  StockRoute.stock_of (adjusted db pid qc) pid = Some (s + qc).
Proof.
  unfold StockRoute.stock_of, adjusted.
  destruct (db !! pid) as [r|]; [|discriminate].
  intros [= <-]. by rewrite lookup_insert_eq.
Qed.

Lemma find_item_None (pid : string) (l : list CartItem) :
  find_item pid l = None → list_find (λ item, productId item = pid) l = None.
Proof. unfold find_item. by destruct (list_find _ l). Qed.

(** C4: [addToCart] rejects a quantity above the known stock with an
    error and without touching stock or cart; whatever it sends is one
    decrement by the chosen quantity; when that decrement does not go
    through (lost, refused by the route, or never sent) stock and cart
    are as before and the last toast is an error; when it goes through
    for a product not yet in the cart, the stock is lowered by the
    quantity and the line item is stored. *)
Theorem addToCart_checks_then_reserves (w : world) (product : Product) :
  let q := chosen w (id product) in
  let w' := exec (addToCart product) w in
  (stockQuantity product < q →
     server w' = server w ∧ requests w' = requests w ∧
     localStorage w' = localStorage w ∧ cartItems w' = cartItems w ∧
     last (toasts w') =
       Some (ToastError ("Only " +:+ pretty (stockQuantity product)
                         +:+ " items available in stock"))) ∧
  (requests w' = requests w ∨ requests w' = requests w ++ [(id product, - q)]) ∧
  (delivered w && accepted (server w) (id product) (- q) = false →
     server w' = server w ∧ localStorage w' = localStorage w ∧
     cartItems w' = cartItems w ∧ ∃ e, last (toasts w') = Some (ToastError e)) ∧
  (q <= stockQuantity product → 0 < stockQuantity product →
   find_item (id product) (localStorage w) = None →
   delivered w = true → accepted (server w) (id product) (- q) = true →
     requests w' = requests w ++ [(id product, - q)] ∧
     (∀ s, StockRoute.stock_of (server w) (id product) = Some s →
           StockRoute.stock_of (server w') (id product) = Some (s - q)) ∧
     localStorage w' = localStorage w ++ [line product q] ∧
     cartItems w' = localStorage w').
Proof.
  intros q w'. split; [|split; [|split]].
  - intros Hover. subst w'. rewrite (addToCart_over _ _ Hover). cbn.
    rewrite last_snoc. repeat split.
  - destruct (addToCart_cases w product) as [[msg E]|[t [[_ [e E]]|[_ [cart E]]]]];
      fold w' in E; rewrite E; cbn; auto.
  - intros Hfail.
    destruct (addToCart_cases w product) as [[msg E]|[t [[_ [e E]]|[Hok _]]]];
      fold w' in E || idtac.
    + rewrite E. cbn. rewrite last_snoc. eauto.
    + rewrite E. cbn. rewrite last_snoc. eauto.
    + fold q in Hok. congruence.
  - intros H1 H2 Hnone Hd Ha.
    destruct (addToCart_new w product H1 H2 (find_item_None _ _ Hnone)) as [E _].
    fold q w' in E. rewrite (E Hd Ha). cbn. repeat split.
    intros s Hs. by apply stock_of_adjusted.
Qed.

Lemma addToCart_checks_then_reserves_witness :
  let w' := exec (addToCart kente) (set_net [true] shop) in
  server w' = server shop ∧ localStorage w' = [] ∧ cartItems w' = [] ∧
  ∃ e, last (toasts w') = Some (ToastError e).
Proof.
  intros w'.
  destruct (addToCart_checks_then_reserves (set_net [true] shop) kente)
    as (_ & _ & H & _).
  apply H. reflexivity.
Defined.


(** Replacing the fields of the item found at [i] is an update in
    place at [i]. *)
Lemma merged_insert (product : Product) (q : Z) (i : nat) (existing : CartItem)
      (cart : list CartItem) :
  cart !! i = Some existing →
  merged product q i existing cart =
  <[i := MkCartItem (productId existing) (item_productName existing)
           (item_price existing) (item_imageURL existing)
           (quantity existing + q) (stockQuantity product - q)]> cart.
Proof.
  intros Hi. apply list_eq. intros j. unfold merged.
  rewrite list_lookup_imap.
  destruct (decide (j = i)) as [->|Hne].
  - rewrite Hi, list_lookup_insert_eq by (by eapply lookup_lt_Some).
    reflexivity.
  - rewrite list_lookup_insert_ne by congruence.
    by destruct (cart !! j).
Qed.

(** C9: for a product already in the cart, [addToCart] rejects, with
    stock and cart unchanged and nothing sent, when the quantity in the
    cart plus the chosen quantity exceeds the known stock; otherwise
    (quantities at least 1) it sends a decrement by the chosen quantity
    alone, and once that is accepted the stock is lowered by the chosen
    quantity and the existing line item holds the sum. *)
Theorem addToCart_existing_item (w : world) (product : Product)
        (i : nat) (existing : CartItem) :
  list_find (λ item, productId item = id product) (localStorage w) = Some (i, existing) →
  let q := chosen w (id product) in
  let w' := exec (addToCart product) w in
  (stockQuantity product < quantity existing + q →
     server w' = server w ∧ requests w' = requests w ∧
     localStorage w' = localStorage w ∧ cartItems w' = cartItems w ∧
     ∃ e, last (toasts w') = Some (ToastError e)) ∧
  (quantity existing + q <= stockQuantity product → 1 <= quantity existing → 1 <= q →
     requests w' = requests w ++ [(id product, - q)] ∧
     (delivered w = true → accepted (server w) (id product) (- q) = true →
        (∀ s, StockRoute.stock_of (server w) (id product) = Some s →
              StockRoute.stock_of (server w') (id product) = Some (s - q)) ∧
        localStorage w' =
          <[i := MkCartItem (productId existing) (item_productName existing)
                   (item_price existing) (item_imageURL existing)
                   (quantity existing + q) (stockQuantity product - q)]> (localStorage w) ∧
        cartItems w' = localStorage w')).
Proof.
  intros Hf q w'. split.
  - intros Hsum.
    assert (∃ msg, w' = set_toasts (toasts w ++ [ToastError msg]) w) as [msg E].
    { destruct (Z.lt_ge_cases (stockQuantity product) q) as [H1|H1].
      { eexists. by apply addToCart_over. }
      destruct (Z.le_gt_cases (stockQuantity product) 0) as [H2|H2].
      { eexists. by apply addToCart_out. }
      eexists. by eapply addToCart_full. }
    rewrite E. cbn. rewrite last_snoc. eauto 10.
  - intros Hsum He Hq.
    assert (q <= stockQuantity product) as H1 by lia.
    assert (0 < stockQuantity product) as H2 by lia.
    destruct (addToCart_merge w product i existing H1 H2 Hf Hsum) as [Hok Hko].
    fold q w' in Hok, Hko.
    destruct (delivered w && accepted (server w) (id product) (- q)) eqn:Hcall.
    + apply andb_prop in Hcall as [Hd Ha]. rewrite (Hok Hd Ha). cbn.
      split; [reflexivity|]. intros _ _. repeat split.
      * intros s Hs. by apply stock_of_adjusted.
      * apply merged_insert. apply list_find_Some in Hf. tauto.
    + destruct (Hko eq_refl) as [e E]. rewrite E. cbn.
      split; [reflexivity|]. intros Hd Ha. rewrite Hd, Ha in Hcall. discriminate.
Qed.

Lemma addToCart_existing_item_witness :
  let w := click_add "p1" (exec (setQuantity "p1" 6) shop) in
  let w' := click_add "p1" (exec (setQuantity "p1" 3) w) in
  held "p1" w = 6 ∧ StockRoute.stock_of (server w) "p1" = Some 4 ∧
  server w' = server w ∧ localStorage w' = localStorage w ∧ cartItems w' = cartItems w.
Proof.
  intros w w'. split; [reflexivity|]. split; [reflexivity|].
  destruct (addToCart_existing_item (exec (setQuantity "p1" 3) w)
              (MkProduct "p1" "Kente" 50 None 4) 0
              (MkCartItem "p1" "Kente" 50 None 6 4)) as [H _].
  - reflexivity.
  - destruct H as (H1 & _ & H2 & H3 & _).
    + vm_compute. reflexivity.
    + exact (conj H1 (conj H2 H3)).
Defined.


Lemma find_item_Some (pid : string) (l : list CartItem) (item : CartItem) :
  find_item pid l = Some item → productId item = pid ∧ item ∈ l.
Proof.
  unfold find_item. destruct (list_find _ l) as [[i x]|] eqn:Hf; [|discriminate].
  intros [= <-]. apply list_find_Some in Hf as (Hi & Hx & _).
  split; [exact Hx|]. by eapply list_elem_of_lookup_2.
Qed.

Lemma find_item_filter_out (pid : string) (l : list CartItem) :
  find_item pid (filter (λ c, productId c ≠ pid) l) = None.
Proof.
  unfold find_item.
  destruct (list_find _ _) as [[i x]|] eqn:Hf; [|reflexivity].
  apply list_find_Some in Hf as (Hi & Hx & _).
  apply list_elem_of_lookup_2, list_elem_of_filter in Hi as [Hne _].
  contradiction.
Qed.

Lemma accepted_row (db : store) (pid : string) (qc : Z) (r : row) :
  db !! pid = Some r → 0 <= row_stockQuantity r + qc → accepted db pid qc = true.
Proof. intros Hr Hpos. unfold accepted. rewrite Hr. by apply Z.leb_le. Qed.

(** C5: for a line item present in the cart, [removeFromCart] sends one
    restore of exactly the quantity the item holds; once the route has
    applied it the product's stock is higher by that quantity and no
    line of the product is left in the cart, the other lines staying in
    place. *)
Theorem removeFromCart_restores (w : world) (pid : string) (item : CartItem) (r : row) :
  find_item pid (cartItems w) = Some item →
  delivered w = true →
  server w !! pid = Some r → 0 <= row_stockQuantity r + quantity item →
  let w' := exec (removeFromCart pid) w in
  requests w' = requests w ++ [(pid, quantity item)] ∧
  StockRoute.stock_of (server w') pid = Some (row_stockQuantity r + quantity item) ∧
  cartItems w' = filter (λ c, productId c ≠ pid) (cartItems w) ∧
  localStorage w' = cartItems w' ∧
  find_item pid (cartItems w') = None.
Proof.
  intros Hitem Hd Hr Hpos w'.
  assert (w' = set_toasts (toasts w ++ [ToastSuccess "Removed from cart"])
                 (set_cartItems (filter (λ c, productId c ≠ pid) (cartItems w))
                    (set_cartItems (filter (λ c, productId c ≠ pid) (cartItems w))
                       (set_localStorage (filter (λ c, productId c ≠ pid) (cartItems w))
                          (served pid (quantity item) w))))) as E.
  { subst w'. unfold exec, removeFromCart. rewrite bind_get, Hitem.
    rewrite try_update_accepted; [reflexivity|exact Hd|by eapply accepted_row]. }
  rewrite E. cbn. repeat split.
  - apply stock_of_adjusted. unfold StockRoute.stock_of. by rewrite Hr.
  - apply find_item_filter_out.
Qed.

Lemma removeFromCart_restores_witness :
  let w := click_add "p1" (exec (setQuantity "p1" 3) shop) in
  let w' := exec (removeFromCart "p1") w in
  StockRoute.stock_of (server w) "p1" = Some 7 ∧
  StockRoute.stock_of (server w') "p1" = Some (7 + 3) ∧
  cartItems w' = [].
Proof.
  intros w w'. split; [reflexivity|].
  destruct (removeFromCart_restores w "p1" (MkCartItem "p1" "Kente" 50 None 3 7)
              (Row "Kente" 7)) as (_ & H1 & H2 & _).
  - reflexivity.
  - reflexivity.
  - reflexivity.
  - vm_compute. discriminate.
  - split; [exact H1|exact H2].
Defined.


(** Rewriting the lines of one product keeps the first line of that
    product first. *)
Lemma find_item_map (pid : string) (f : CartItem → CartItem) (l : list CartItem) :
  (∀ c, productId (f c) = productId c) →
  find_item pid (map f l) = f <$> find_item pid l.
Proof.
  intros Hf. unfold find_item. induction l as [|c l IH]; [reflexivity|].
  cbn. rewrite Hf. destruct (decide (productId c = pid)); [reflexivity|].
  cbn in IH.
  destruct (list_find _ (map f l)) as [[j x]|], (list_find _ l) as [[j' x']|];
    cbn in *; congruence.
Qed.

(** A decrease through [updateCartQuantity]: the quantity of the line
    stops at 1, the stock request carries the whole [delta]. *)
Lemma updateCartQuantity_decrease (w : world) (pid : string) (delta : Z)
      (item : CartItem) (p : Product) (r : row) :
  find_item pid (cartItems w) = Some item →
  find_product pid (featuredProducts w) = Some p →
  delta <= 0 → delivered w = true →
  server w !! pid = Some r → 0 <= row_stockQuantity r - delta →
  let w' := exec (updateCartQuantity pid delta) w in
  requests w' = requests w ++ [(pid, - delta)] ∧
  StockRoute.stock_of (server w') pid = Some (row_stockQuantity r - delta) ∧
  quantity <$> find_item pid (cartItems w') = Some (Z.max (quantity item + delta) 1).
Proof.
  intros Hitem Hp Hdelta Hd Hr Hpos w'. subst w'.
  unfold exec, updateCartQuantity. rewrite bind_get, Hitem, Hp. cbv zeta.
  assert ((0 <? delta) = false) as -> by (apply Z.ltb_ge; lia).
  rewrite try_update_accepted;
    [|exact Hd|eapply accepted_row; [exact Hr|lia]].
  cbn -[find_item]. repeat split.
  - rewrite (stock_of_adjusted _ _ _ (row_stockQuantity r)).
    + reflexivity.
    + unfold StockRoute.stock_of. by rewrite Hr.
  - rewrite find_item_map.
    + rewrite Hitem. cbn.
      apply find_item_Some in Hitem as [Hpid _].
      by rewrite decide_True.
    + intros c. by destruct (decide _).
Qed.

(** C2, the worked example: from stock 10, adding 3 leaves 7, raising
    the line by 2 leaves 5, removing the line gives 10 back. *)
Example cart_walkthrough :
  let w1 := click_add "p1" (exec (setQuantity "p1" 3) shop) in
  let w2 := exec (updateCartQuantity "p1" 2) w1 in
  let w3 := exec (removeFromCart "p1") w2 in
  (StockRoute.stock_of (server w1) "p1", held "p1" w1) = (Some 7, 3) ∧
  (StockRoute.stock_of (server w2) "p1", held "p1" w2) = (Some 5, 5) ∧
  (StockRoute.stock_of (server w3) "p1", held "p1" w3) = (Some 10, 0).
Proof. vm_compute. repeat split. Qed.

(** C2, where the code departs from it: with one unit in the cart
    (stock 9 of 10), the minus button calls [updateCartQuantity] with
    -1; the line stays at quantity 1 but one unit is added to the stock,
    so the stock is 10 although one unit is still held, and a second
    click brings it to 11. *)
Theorem updateCartQuantity_at_one_inflates_stock :
  let w1 := click_add "p1" shop in
  let w2 := exec (updateCartQuantity "p1" (-1)) w1 in
  let w3 := exec (updateCartQuantity "p1" (-1)) w2 in
  (StockRoute.stock_of (server w1) "p1", held "p1" w1) = (Some 9, 1) ∧
  (StockRoute.stock_of (server w2) "p1", held "p1" w2) = (Some 10, 1) ∧
  (StockRoute.stock_of (server w3) "p1", held "p1" w3) = (Some 11, 1) ∧
  requests w3 = [("p1", -1); ("p1", 1); ("p1", 1)].
Proof. vm_compute. repeat split. Qed.


(** *** Clearing the cart *)

Lemma bind_exec {A B} (c : act A) (k : A → act B) (w : world) (a : A) :
  snd (c w) = inl a → bind c k w = k a (exec c w).
Proof. unfold bind, exec. destruct (c w) as [w1 [a'|e]]; cbn; congruence. Qed.

Lemma restore_effect (w : world) (item : CartItem) :
  let w' := exec (restore item) w in
  snd (restore item w) = inl tt ∧
  requests w' = requests w ++ [restore_request item] ∧
  net w' = tail (net w) ∧
  localStorage w' = localStorage w ∧ cartItems w' = cartItems w ∧
  server w' = if delivered w && accepted (server w) (productId item) (quantity item)
              then adjusted (server w) (productId item) (quantity item)
              else server w.
Proof.
  unfold exec, restore.
  destruct (delivered w && accepted (server w) (productId item) (quantity item)) eqn:Hcall.
  - apply andb_prop in Hcall as [Hd Ha].
    rewrite (try_update_accepted _ _ _ _ _ Hd Ha). cbn. repeat split.
  - destruct (updateProductStock_failed _ _ _ Hcall) as (e & _ & He).
    unfold try_catch, bind. rewrite He. cbn. repeat split.
Qed.

Lemma for_each_cons (f : CartItem → act unit) (a : CartItem) (l : list CartItem)
      (w : world) :
  snd (f a w) = inl tt → for_each f (a :: l) w = for_each f l (exec (f a) w).
Proof. intros H. exact (bind_exec (f a) (λ _, for_each f l) w tt H). Qed.

Lemma for_each_restore_effects (l : list CartItem) (w : world) :
  let w' := exec (for_each restore l) w in
  snd (for_each restore l w) = inl tt ∧
  requests w' = requests w ++ map restore_request l ∧
  localStorage w' = localStorage w ∧ cartItems w' = cartItems w.
Proof.
  revert w. induction l as [|a l IH]; intros w.
  - cbn. rewrite app_nil_r. repeat split.
  - destruct (restore_effect w a) as (Hret & Hreq & _ & Hls & Hci & _).
    destruct (IH (exec (restore a) w)) as (IHret & IHreq & IHls & IHci).
    cbn zeta. unfold exec at 1 2 3. rewrite (for_each_cons _ _ _ _ Hret).
    fold (exec (for_each restore l) (exec (restore a) w)).
    rewrite IHreq, IHls, IHci, Hreq, Hls, Hci. cbn [map].
    rewrite <- app_assoc. repeat split. exact IHret.
Qed.

Lemma adjusted_other (db : store) (pid pid' : string) (qc : Z) :
  pid' ≠ pid → adjusted db pid qc !! pid' = db !! pid'.
Proof.
  intros Hne. unfold adjusted. destruct (db !! pid); [|reflexivity].
  apply lookup_insert_ne. congruence.
Qed.

Lemma restore_other (w : world) (item : CartItem) (pid : string) :
  pid ≠ productId item → server (exec (restore item) w) !! pid = server w !! pid.
Proof.
  intros Hne. destruct (restore_effect w item) as (_ & _ & _ & _ & _ & ->).
  destruct (_ && _); [|reflexivity]. by apply adjusted_other.
Qed.

(** The restores of the other products leave a product's row alone. *)
Lemma for_each_restore_frame (l : list CartItem) (w : world) (pid : string) :
  pid ∉ map productId l →
  server (exec (for_each restore l) w) !! pid = server w !! pid.
Proof.
  revert w. induction l as [|a l IH]; intros w Hnot; [reflexivity|].
  cbn [map] in Hnot. apply not_elem_of_cons in Hnot as [Hne Hnot].
  destruct (restore_effect w a) as (Hret & _).
  unfold exec at 1. rewrite (for_each_cons _ _ _ _ Hret).
  fold (exec (for_each restore l) (exec (restore a) w)).
  rewrite (IH _ Hnot). by apply restore_other.
Qed.

Lemma for_each_restore_server (l : list CartItem) :
  ∀ (w : world) (i : nat) (item : CartItem) (r : row),
    NoDup (map productId l) →
    l !! i = Some item → net w !! i ≠ Some true →
    server w !! productId item = Some r →
    0 <= row_stockQuantity r + quantity item →
    server (exec (for_each restore l) w) !! productId item
    = Some (Row (row_productName r) (row_stockQuantity r + quantity item)).
Proof.
  induction l as [|a l IH]; intros w i item r Hnd Hi Hnet Hr Hpos; [discriminate|].
  cbn [map] in Hnd. apply NoDup_cons in Hnd as [Hfresh Hnd].
  destruct (restore_effect w a) as (Hret & _ & Hnet' & _ & _ & Hsrv).
  unfold exec at 1. rewrite (for_each_cons _ _ _ _ Hret).
  fold (exec (for_each restore l) (exec (restore a) w)).
  destruct i as [|i].
  - injection Hi as ->.
    rewrite (for_each_restore_frame _ _ _ Hfresh), Hsrv.
    assert (delivered w = true) as ->.
    { unfold delivered. destruct (net w) as [|[] rest]; [reflexivity| |reflexivity].
      by destruct Hnet. }
    rewrite (accepted_row _ _ _ _ Hr Hpos). cbn.
    unfold adjusted. rewrite Hr. apply lookup_insert_eq.
  - cbn in Hi.
    assert (productId item ≠ productId a) as Hne.
    { intros Heq. apply Hfresh. rewrite <- Heq.
      apply list_elem_of_fmap. exists item. split; [reflexivity|].
      by eapply list_elem_of_lookup_2. }
    apply (IH _ i item r Hnd Hi).
    + rewrite Hnet'. destruct (net w); [cbn; discriminate|exact Hnet].
    + rewrite (restore_other _ _ _ Hne). exact Hr.
    + exact Hpos.
Qed.

Lemma clearCart_world (w : world) :
  exec clearCart w =
  set_toasts (toasts (exec (for_each restore (cartItems w)) w) ++ [ToastSuccess "Cart cleared"])
    (set_cartItems [] (set_cartItems [] (set_localStorage []
       (exec (for_each restore (cartItems w)) w)))).
Proof.
  destruct (for_each_restore_effects (cartItems w) w) as (Hret & _).
  unfold exec at 1, clearCart. rewrite bind_get.
  change (for_each _ (cartItems w)) with (for_each restore (cartItems w)).
  rewrite (bind_exec _ _ _ _ Hret). reflexivity.
Qed.

(** C6: [clearCart] sends a restore for every line of the cart, in the
    order of the cart, whatever becomes of the others; every restore
    that reaches the route and is accepted there raises the stock of its
    product by the full quantity the line held, also when the restore of
    another line fails; the cart is empty afterwards.  (The lines carry
    distinct products.) *)
Theorem clearCart_restores_each (w : world) :
  NoDup (map productId (cartItems w)) →
  let w' := exec clearCart w in
  requests w' = requests w ++ map restore_request (cartItems w) ∧
  cartItems w' = [] ∧ localStorage w' = [] ∧
  ∀ i item r,
    cartItems w !! i = Some item →
    net w !! i ≠ Some true →
    server w !! productId item = Some r →
    0 <= row_stockQuantity r + quantity item →
    StockRoute.stock_of (server w') (productId item)
    = Some (row_stockQuantity r + quantity item).
Proof.
  intros Hnd w'. subst w'. rewrite clearCart_world. cbn.
  destruct (for_each_restore_effects (cartItems w) w) as (_ & Hreq & _).
  repeat split; [exact Hreq|].
  intros i item r Hi Hnet Hr Hpos. unfold StockRoute.stock_of.
  by rewrite (for_each_restore_server _ w i item r Hnd Hi Hnet Hr Hpos).
Qed.

Lemma clearCart_restores_each_witness :
  let w' := exec clearCart (set_net [true] shop_AB) in
  requests w' = [("A", 2); ("B", 3)] ∧
  StockRoute.stock_of (server w') "B" = Some (10 + 3) ∧
  cartItems w' = [].
Proof.
  intros w'.
  destruct (clearCart_restores_each (set_net [true] shop_AB)) as (H1 & H2 & _ & H3).
  - apply (bool_decide_unpack _). vm_compute. exact I.
  - split; [exact H1|]. split; [|exact H2].
    apply (H3 1%nat (MkCartItem "B" "Bolga basket" 25 None 3 10) (Row "Bolga basket" 10)).
    + reflexivity.
    + discriminate.
    + reflexivity.
    + vm_compute. discriminate.
Defined.

(** The restore that is lost is not made up for: the line is dropped
    with the rest of the cart and its units stay out of the stock. *)
Example clearCart_lost_restore :
  let w' := exec clearCart (set_net [true] shop_AB) in
  StockRoute.stock_of (server w') "A" = Some 10 ∧
  StockRoute.stock_of (server w') "B" = Some 13 ∧
  localStorage w' = [] ∧
  toasts w' = [ToastSuccess "Cart cleared"] ∧
  console w' = ["Failed to update stock:"; "Failed to restore stock for A:"].
Proof. vm_compute. repeat split. Qed.

Example clearCart_all_delivered :
  let w' := exec clearCart shop_AB in
  StockRoute.stock_of (server w') "A" = Some 12 ∧
  StockRoute.stock_of (server w') "B" = Some 13 ∧
  localStorage w' = [].
Proof. vm_compute. repeat split. Qed.

End HomePageFacts.

(** ** Two sessions and the last unit *)

Section TwoSessions.
Import HomePage.

(** What a session that adds one unit sends is [take_one]. *)
Example add_one_sends_take_one :
  requests (click_add "p1" shop) = [("p1", -1)].
Proof. reflexivity. Qed.

(** C8 as stated fails: when both handlers read the stock before either
    writes it, both requests for the last unit succeed. *)
Lemma overlapping_requests_both_succeed :
  ¬ at_most_one_success last_unit take_one take_one.
Proof.
  intros H. specialize (H [false; true; false; true]).
  vm_compute in H. apply (H _ _ _ eq_refl). split; reflexivity.
Qed.

(** The table after that overlap: one unit was in stock, two were
    handed out, the stock reads 0. *)
Example overlapping_requests_table :
  (interleave [false; true; false; true] last_unit take_one take_one).1.1
  = {["p1" := Row "Kente" 0]}.
Proof. vm_compute. reflexivity. Qed.

(** Of the six ways to order the two database accesses of each handler,
    only the two that serve one handler after the other refuse one of
    the requests. *)
Example overlap_or_serial (a b c d : bool) :
  length (filter (λ x, x = true) [a; b; c; d]) = 2%nat →
  ∃ db r1 r2,
    interleave [a; b; c; d] last_unit take_one take_one = (db, Ret r1, Ret r2) ∧
    (ok r1 && ok r2 = false ↔ [a; b; c; d] = [false; false; true; true]
                              ∨ [a; b; c; d] = [true; true; false; false]).
Proof.
  destruct a, b, c, d; cbn; try discriminate; intros _;
    do 3 eexists; (split; [vm_compute; reflexivity|]);
    cbn; split; intros H; try discriminate H; auto;
    destruct H as [H|H]; discriminate H.
Qed.

(** C8, amended: when the second session's request is served after the
    first session's, the first add-to-cart succeeds (the unit is taken
    and the line stored) and the second fails (the route refuses, the
    cart of the second session is as before, its last toast is an
    error). *)
Theorem serial_add_to_cart_one_success (wa wb : world) (product : Product) (r : row) :
  stockQuantity product = 1 →
  chosen wa (id product) = 1 → chosen wb (id product) = 1 →
  find_item (id product) (localStorage wa) = None →
  find_item (id product) (localStorage wb) = None →
  delivered wa = true → delivered wb = true →
  server wa !! id product = Some r → row_stockQuantity r = 1 →
  let wa' := exec (addToCart product) wa in
  let wb' := exec (addToCart product) (arrives_after wa' wb) in
  (localStorage wa' = localStorage wa ++ [line product 1] ∧
   StockRoute.stock_of (server wa') (id product) = Some 0) ∧
  (localStorage wb' = localStorage wb ∧
   StockRoute.stock_of (server wb') (id product) = Some 0 ∧
   ∃ e, last (toasts wb') = Some (ToastError e)).
Proof.
  intros Hstock Hqa Hqb Hna Hnb Hda Hdb Hr Hone wa' wb'.
  assert (accepted (server wa) (id product) (- chosen wa (id product)) = true) as Haa.
  { eapply accepted_row; [exact Hr|]. rewrite Hqa, Hone. lia. }
  destruct (addToCart_new wa product) as [Ea _];
    [lia|lia|by apply find_item_None|].
  specialize (Ea Hda Haa). fold wa' in Ea.
  assert (server wa' = adjusted (server wa) (id product) (-1)) as Hsrv.
  { rewrite Ea, Hqa. reflexivity. }
  assert (StockRoute.stock_of (server wa') (id product) = Some 0) as Hzero.
  { rewrite Hsrv. rewrite (stock_of_adjusted _ _ _ 1); [reflexivity|].
    unfold StockRoute.stock_of. by rewrite Hr, <- Hone. }
  split.
  { split; [|exact Hzero]. rewrite Ea, Hqa. reflexivity. }
  set (wb0 := arrives_after wa' wb) in *.
  assert (chosen wb0 (id product) = 1) as Hqb0 by exact Hqb.
  assert (delivered wb0 && accepted (server wb0) (id product) (- chosen wb0 (id product))
          = false) as Hrefused.
  { rewrite Hqb0. apply andb_false_intro2. unfold accepted.
    change (server wb0) with (server wa').
    unfold StockRoute.stock_of in Hzero.
    destruct (server wa' !! id product) as [r'|]; [|reflexivity].
    injection Hzero as ->. reflexivity. }
  destruct (addToCart_new wb0 product) as [_ Eb];
    [lia|lia|by apply find_item_None|].
  destruct (Eb Hrefused) as [e E]. fold wb' in E. rewrite E. cbn.
  rewrite last_snoc. split; [reflexivity|]. split; [exact Hzero|eauto].
Qed.

Lemma serial_add_to_cart_one_success_witness :
  let one := MkProduct "p1" "Kente" 50 None 1 in
  let session := World last_unit [] [] [] [one] ∅ [] false [] [] in
  let wa' := exec (addToCart one) session in
  let wb' := exec (addToCart one) (arrives_after wa' session) in
  localStorage wa' = [line one 1] ∧ localStorage wb' = [] ∧
  ∃ e, last (toasts wb') = Some (ToastError e).
Proof.
  intros one session wa' wb'.
  destruct (serial_add_to_cart_one_success session session one (Row "Kente" 1))
    as ((H1 & _) & (H2 & _ & H3)); try reflexivity.
  exact (conj H1 (conj H2 H3)).
Defined.

End TwoSessions.

Section Conservation.
Import HomePage.

Variables (pid : string) (total : Z).

Lemma find_product_id (l : list Product) (p : Product) :
  find_product pid l = Some p → id p = pid.
Proof.
  unfold find_product. destruct (list_find _ l) as [[i x]|] eqn:Hf; [|discriminate].
  intros [= <-]. by apply list_find_Some in Hf as (_ & Hx & _).
Qed.

Lemma find_product_with_stock (n : Z) (l : list Product) (p : Product) :
  find_product pid (with_stock pid n l) = Some p → stockQuantity p = n.
Proof.
  unfold find_product, with_stock. induction l as [|x l IH]; [discriminate|].
  cbn. destruct (decide (id x = pid)) as [Hx|Hx]; cbn.
  - rewrite decide_True by exact Hx. by intros [= <-].
  - rewrite decide_False by exact Hx. cbn in IH.
    destruct (list_find _ (map _ l)) as [[j y]|]; [|discriminate].
    cbn in *. exact IH.
Qed.

(** What [in_step] looks at. *)
Lemma in_step_same (w w' : world) :
  cartItems w' = cartItems w → localStorage w' = localStorage w →
  server w' = server w → featuredProducts w' = featuredProducts w →
  in_step pid total w → in_step pid total w'.
Proof.
  unfold in_step, held, rendered. intros -> -> -> ->. tauto.
Qed.

(** An accepted change of the stock together with the opposite change of
    the quantity held. *)
Lemma in_step_served (w w' : world) (qc : Z) (cart : list CartItem) :
  in_step pid total w →
  accepted (server w) pid qc = true →
  server w' = adjusted (server w) pid qc →
  featuredProducts w' =
    with_stock pid (default 0 (StockRoute.stock_of (adjusted (server w) pid qc) pid))
               (featuredProducts w) →
  cartItems w' = cart → localStorage w' = cart →
  NoDup (productId <$> cart) →
  default 0 (quantity <$> find_item pid cart) = held pid w - qc →
  in_step pid total w'.
Proof.
  intros (_ & _ & s & Hs & Hpos & Hsum & _) Ha Hsrv Hfp Hci Hls Hnd Hheld.
  assert (StockRoute.stock_of (server w') pid = Some (s + qc)) as Hs'.
  { rewrite Hsrv. by apply stock_of_adjusted. }
  unfold in_step. rewrite Hci, Hls. split; [reflexivity|]. split; [exact Hnd|].
  exists (s + qc). split; [exact Hs'|]. split.
  - unfold accepted, StockRoute.stock_of in *.
    destruct (server w !! pid) as [r|]; [|discriminate].
    injection Hs as <-. by apply Z.leb_le.
  - split.
    + unfold held at 1. rewrite Hls, Hheld. lia.
    + intros p. unfold rendered. rewrite Hfp, <- Hsrv, Hs'. cbn.
      apply find_product_with_stock.
Qed.

Lemma held_None (w : world) :
  list_find (λ item, productId item = pid) (localStorage w) = None → held pid w = 0.
Proof. intros H. unfold held, find_item. by rewrite H. Qed.

Lemma held_Some (w : world) (i : nat) (existing : CartItem) :
  list_find (λ item, productId item = pid) (localStorage w) = Some (i, existing) →
  held pid w = quantity existing.
Proof. intros H. unfold held, find_item. by rewrite H. Qed.

Lemma addToCart_in_step (w : world) (p : Product) :
  rendered pid w = Some p → in_step pid total w →
  in_step pid total (exec (addToCart p) w).
Proof.
  intros Hp Hw. assert (id p = pid) as Hid by (by eapply find_product_id).
  assert (∀ msg, in_step pid total (set_toasts (toasts w ++ [ToastError msg]) w)) as Hrej.
  { intros msg. by apply (in_step_same w). }
  destruct (Z.lt_ge_cases (stockQuantity p) (chosen w (id p))) as [H1|H1].
  { rewrite addToCart_over by exact H1. apply Hrej. }
  destruct (Z.le_gt_cases (stockQuantity p) 0) as [H2|H2].
  { rewrite addToCart_out by assumption. apply Hrej. }
  destruct (list_find (λ item, productId item = id p) (localStorage w))
    as [[i existing]|] eqn:Hf.
  - destruct (Z.lt_ge_cases (stockQuantity p) (quantity existing + chosen w (id p)))
      as [H3|H3].
    { rewrite (addToCart_full _ _ _ _ H1 H2 Hf H3). apply Hrej. }
    destruct (addToCart_merge w p i existing H1 H2 Hf H3) as [Hok Hko].
    destruct (delivered w && accepted (server w) (id p) (- chosen w (id p))) eqn:Hcall.
    + apply andb_prop in Hcall as [Hd Ha]. rewrite (Hok Hd Ha).
      rewrite Hid in *.
      apply list_find_Some in Hf as Hf'. destruct Hf' as (Hi & Hpid & _).
      eapply (in_step_served w _ (- chosen w pid)); try reflexivity; try assumption.
      * cbn. rewrite (merged_insert _ _ _ _ _ Hi), list_fmap_insert. cbn.
        rewrite list_insert_id; [apply Hw|].
        rewrite list_lookup_fmap, Hi. cbn. by rewrite Hpid.
      * cbn. rewrite (merged_insert _ _ _ _ _ Hi).
        rewrite (held_Some _ _ _ Hf). unfold find_item.
        match goal with
        | |- context [list_find ?P (<[i := ?e]> ?l)] =>
            assert (list_find P (<[i := e]> l) = Some (i, e)) as ->
        end.
        { apply list_find_insert_Some. right; left.
          apply list_find_Some in Hf as (_ & _ & Hleast).
          split_and!; [reflexivity|reflexivity|by eapply lookup_lt_Some|exact Hpid
                      |exact Hleast]. }
        cbn. lia.
    + destruct (Hko eq_refl) as [e ->]. by apply (in_step_same w).
  - destruct (addToCart_new w p H1 H2 Hf) as [Hok Hko].
    destruct (delivered w && accepted (server w) (id p) (- chosen w (id p))) eqn:Hcall.
    + apply andb_prop in Hcall as [Hd Ha]. rewrite (Hok Hd Ha).
      rewrite Hid in *.
      eapply (in_step_served w _ (- chosen w pid)); try reflexivity; try assumption.
      * cbn. rewrite fmap_app. apply NoDup_app. split; [apply Hw|]. split.
        -- intros x Hx. cbn. rewrite Hid. intros ->%list_elem_of_singleton.
           apply list_elem_of_fmap in Hx as (c & Hc & Hin).
           apply list_find_None in Hf. rewrite Forall_forall in Hf.
           by apply (Hf c).
        -- apply NoDup_singleton.
      * cbn. rewrite (held_None _ Hf). unfold find_item.
        rewrite list_find_app_r by exact Hf. cbn. rewrite Hid.
        rewrite decide_True by reflexivity. cbn. lia.
    + destruct (Hko eq_refl) as [e ->]. by apply (in_step_same w).
Qed.






Lemma map_keeps_productId (f : CartItem → CartItem) (l : list CartItem) :
  (∀ c, productId (f c) = productId c) → productId <$> map f l = productId <$> l.
Proof.
  intros Hf. induction l as [|c l IH]; [reflexivity|]. cbn. by rewrite Hf, <- IH.
Qed.





End Conservation.

Example shop_in_step : in_step "p1" 10 shop.
Proof.
  split; [reflexivity|]. split; [constructor|].
  exists 10. repeat split; [lia|]. intros p [= <-]. reflexivity.
Qed.

(** ** More on the stock-adjustment route *)

Section StockRouteMore.
Import StockRoute.

Lemma run_PATCH_cases (db : store) (id : string) (request : option body) :
  (after (PATCH id request) db = db ∧ code (reply (PATCH id request) db) ≠ 200) ∨
  (∃ p delta op,
      request = Some (Body (JNum delta) op) ∧ db !! id = Some p ∧
      0 <= row_stockQuantity p + delta ∧
      after (PATCH id request) db
        = <[id := Row (row_productName p) (row_stockQuantity p + delta)]> db ∧
      code (reply (PATCH id request) db) = 200).
Proof.
  unfold after, reply.
  destruct request as [[q op]|]; [|left; by split].
  destruct q as [| |delta]; [left; by split|left; by split|].
  rewrite run_PATCH_num.
  destruct (db !! id) as [p|] eqn:Hp; [|left; by split].
  destruct (row_stockQuantity p + delta <? 0) eqn:Hlt; [left; by split|].
  right. exists p, delta, op. apply Z.ltb_ge in Hlt. by repeat split.
Qed.

(** The table changes only with a 200 reply; even then the rows of the
    other products, the name of the product and the set of products are
    as before: the route neither creates nor deletes a row. *)
Theorem PATCH_touches_one_stock (db : store) (id : string) (request : option body) :
  let r := reply (PATCH id request) db in
  let db' := after (PATCH id request) db in
  (code r ≠ 200 → db' = db) ∧
  (∀ id', id' ≠ id → db' !! id' = db !! id') ∧
  row_productName <$> db' !! id = row_productName <$> db !! id ∧
  dom db' = dom db.
Proof.
  intros r db'. subst r db'.
  destruct (run_PATCH_cases db id request)
    as [[-> _]|(p & delta & op & _ & Hp & _ & -> & Hc)].
  - repeat split.
  - split; [intros Hne; by destruct Hne|]. split; [|split].
    + intros id' Hne. apply lookup_insert_ne. congruence.
    + by rewrite lookup_insert_eq, Hp.
    + apply dom_insert_lookup_L. by rewrite Hp.
Qed.

Lemma PATCH_touches_one_stock_witness :
  after (PATCH "p1" (stock_request (-11))) {["p1" := Row "Kente" 10]}
  = {["p1" := Row "Kente" 10]}.
Proof.
  destruct (PATCH_touches_one_stock {["p1" := Row "Kente" 10]} "p1" (stock_request (-11)))
    as (H & _).
  apply H. vm_compute. discriminate.
Defined.

(** A change that was accepted is undone by the opposite change: the
    table is the one before both (the stock was not negative to begin
    with). *)
Theorem PATCH_undo (db : store) (id : string) (p : row) (delta : Z) :
  db !! id = Some p → 0 <= row_stockQuantity p → 0 <= row_stockQuantity p + delta →
  let db1 := after (PATCH id (stock_request delta)) db in
  code (reply (PATCH id (stock_request delta)) db) = 200 ∧
  code (reply (PATCH id (stock_request (- delta))) db1) = 200 ∧
  after (PATCH id (stock_request (- delta))) db1 = db.
Proof.
  intros Hp Hs Hd db1. subst db1. unfold after, reply, stock_request.
  rewrite !run_PATCH_num, Hp.
  apply Z.ltb_ge in Hd as Hd'. rewrite Hd'. cbn [fst snd].
  rewrite lookup_insert_eq. cbn [row_stockQuantity row_productName].
  assert (row_stockQuantity p + delta + - delta = row_stockQuantity p) as -> by lia.
  apply Z.ltb_ge in Hs as Hs'. rewrite Hs'. cbn.
  repeat split. rewrite insert_insert_eq. apply insert_id. rewrite Hp. by destruct p.
Qed.

Lemma PATCH_undo_witness :
  let db : store := {["p1" := Row "Kente" 10]} in
  after (PATCH "p1" (stock_request 3)) (after (PATCH "p1" (stock_request (-3))) db) = db.
Proof.
  intros db.
  destruct (PATCH_undo db "p1" (Row "Kente" 10) (-3)) as (_ & _ & H).
  - reflexivity.
  - cbn. lia.
  - cbn. lia.
  - exact H.
Defined.

(** Two changes served one after the other, both accepted, leave the
    table one change by their sum leaves. *)
Theorem PATCH_serial_sum (db : store) (id : string) (p : row) (d1 d2 : Z) :
  db !! id = Some p →
  0 <= row_stockQuantity p + d1 → 0 <= row_stockQuantity p + d1 + d2 →
  after (PATCH id (stock_request d2)) (after (PATCH id (stock_request d1)) db)
  = after (PATCH id (stock_request (d1 + d2))) db.
Proof.
  intros Hp H1 H2. unfold after, stock_request.
  rewrite !run_PATCH_num, Hp.
  apply Z.ltb_ge in H1 as ->. cbn [fst].
  rewrite lookup_insert_eq. cbn [row_stockQuantity row_productName].
  apply Z.ltb_ge in H2 as H2'. rewrite H2'.
  assert ((row_stockQuantity p + (d1 + d2) <? 0) = false) as ->
    by (apply Z.ltb_ge; lia).
  cbn. rewrite insert_insert_eq. do 2 f_equal. lia.
Qed.

Lemma PATCH_serial_sum_witness :
  let db : store := {["p1" := Row "Kente" 10]} in
  after (PATCH "p1" (stock_request 5)) (after (PATCH "p1" (stock_request (-3))) db)
  = after (PATCH "p1" (stock_request 2)) db.
Proof.
  intros db. apply (PATCH_serial_sum db "p1" (Row "Kente" 10) (-3) 5).
  - reflexivity.
  - cbn. lia.
  - cbn. lia.
Defined.

(** The lost update: when two changes of the same product are handled so
    that both handlers read before either writes, both get a 200 that
    reports its own sum, and the table keeps the sum of the handler that
    wrote last; the other change is gone. *)
Theorem PATCH_lost_update (db : store) (id : string) (p : row) (d1 d2 : Z) :
  db !! id = Some p →
  0 <= row_stockQuantity p + d1 → 0 <= row_stockQuantity p + d2 →
  ∃ r1 r2,
    interleave [false; true; false; true] db
               (PATCH id (stock_request d1)) (PATCH id (stock_request d2))
    = (<[id := Row (row_productName p) (row_stockQuantity p + d2)]> db, Ret r1, Ret r2) ∧
    code r1 = 200 ∧ newStock r1 = Some (row_stockQuantity p + d1) ∧
    code r2 = 200 ∧ newStock r2 = Some (row_stockQuantity p + d2).
Proof.
  intros Hp H1 H2. apply Z.ltb_ge in H1, H2.
  cbn. rewrite Hp. cbn. rewrite H1, H2. cbn. rewrite Hp. cbn.
  rewrite lookup_insert_eq. cbn. rewrite insert_insert_eq.
  do 2 eexists. repeat split.
Qed.

Lemma PATCH_lost_update_witness :
  ∃ r1 r2,
    interleave [false; true; false; true] {["p1" := Row "Kente" 10]}
               (PATCH "p1" (stock_request (-3))) (PATCH "p1" (stock_request (-4)))
    = ({["p1" := Row "Kente" 6]}, Ret r1, Ret r2) ∧
    newStock r1 = Some 7 ∧ newStock r2 = Some 6.
Proof.
  destruct (PATCH_lost_update {["p1" := Row "Kente" 10]} "p1" (Row "Kente" 10) (-3) (-4))
    as (r1 & r2 & H & _ & H1 & _ & H2).
  - reflexivity.
  - cbn. lia.
  - cbn. lia.
  - exists r1, r2. split; [|split; assumption].
    rewrite H. rewrite insert_singleton_eq. reflexivity.
Defined.

End StockRouteMore.

(** ** More on the vendor login route *)

Section VendorLoginMore.
Import VendorLogin.

Variables trim toLowerCase : string -> string.

Lemma findFirst_Some (vendors : list vendor) (mail phone : string) (v : vendor) :
  findFirst vendors mail phone = Some v →
  v ∈ vendors ∧ (email v = mail ∨ phoneNumber v = phone).
Proof.
  unfold findFirst. destruct (list_find _ vendors) as [[i x]|] eqn:Hf; [|discriminate].
  intros [= <-]. apply list_find_Some in Hf as (Hi & Hx & _).
  split; [by eapply list_elem_of_lookup_2|exact Hx].
Qed.

Lemma falsy_false (x : option string) :
  falsy x = false → ∃ s, x = Some s ∧ s ≠ "".
Proof.
  destruct x as [s|]; [|discriminate]. cbn. intros H.
  exists s. split; [reflexivity|]. by apply bool_decide_eq_false in H.
Qed.

(** A reply that carries a vendor is a 200 for a request with both fields
    present, and the vendor is a row of the table, matches the identifier
    by e-mail (lowered, trimmed) or by phone number (trimmed), and has an
    active account. *)
Theorem POST_returns_matching_active_vendor
        (vendors : list vendor) (request : option body) (pl : payload) :
  data (POST trim toLowerCase vendors request) = Some pl →
  code (POST trim toLowerCase vendors request) = 200 ∧
  userType pl = "vendor" ∧
  pl_vendor pl ∈ vendors ∧ isActive (pl_vendor pl) = true ∧
  ∃ ident pw,
    request = Some (Body (Some ident) (Some pw)) ∧ ident ≠ "" ∧ pw ≠ "" ∧
    (email (pl_vendor pl) = toLowerCase (trim ident)
     ∨ phoneNumber (pl_vendor pl) = trim ident).
Proof.
  destruct request as [[i p]|]; [|discriminate]. unfold POST. cbn [identifier password].
  destruct (falsy i) eqn:Hi; [discriminate|].
  destruct (falsy p) eqn:Hp; [discriminate|]. cbn [orb].
  apply falsy_false in Hi as (ident & -> & Hident).
  apply falsy_false in Hp as (pw & -> & Hpw).
  destruct (findFirst _ _ _) as [v|] eqn:Hv; [|discriminate].
  destruct (isActive v) eqn:Ha; [|discriminate]. cbn.
  intros [= <-]. cbn. apply findFirst_Some in Hv as [Hin Hmatch].
  repeat split; [exact Hin|exact Ha|]. exists ident, pw. by repeat split.
Qed.


End VendorLoginMore.

Lemma POST_returns_matching_active_vendor_witness :
  code (VendorLogin.POST VendorLogin.ascii_trim VendorLogin.ascii_toLowerCase
          [kofi; ama]
          (Some (VendorLogin.Body (Some "0240000000 ") (Some "x")))) = 200
  ∧ ama ∈ [kofi; ama].
Proof.
  destruct (POST_returns_matching_active_vendor
              VendorLogin.ascii_trim VendorLogin.ascii_toLowerCase [kofi; ama]
              (Some (VendorLogin.Body (Some "0240000000 ") (Some "x")))
              (VendorLogin.Payload ama "vendor")) as (H1 & _ & H2 & _).
  - reflexivity.
  - exact (conj H1 H2).
Defined.


(** ** The vendor login page *)

Section VendorLoginPageFacts.
Import VendorLoginPage.

Variables trim toLowerCase : string -> string.

Lemma handleSubmit_replied (vendors : list VendorLogin.vendor) (f : form) (p : page) :
  handleSubmit trim toLowerCase vendors false f p =
  let res := VendorLogin.POST trim toLowerCase vendors
               (Some (VendorLogin.Body (Some (identifier f)) (Some (password f)))) in
  match data res with
  | Some d =>
      Page false (Some (VendorLogin.Payload (VendorLogin.pl_vendor d) "vendor"))
           (toasts p ++ [HomePage.ToastSuccess "Welcome back!"])
           (Some "/ui/vendors/dashboard")
  | None => Page false (storage p) (toasts p ++ [HomePage.ToastError (message res)]) (route p)
  end.
Proof.
  unfold handleSubmit, VendorLogin.POST. cbn [VendorLogin.identifier VendorLogin.password].
  destruct (VendorLogin.falsy (Some (identifier f)) || VendorLogin.falsy (Some (password f)));
    [reflexivity|].
  destruct (VendorLogin.findFirst _ _ _) as [v|]; [|reflexivity].
  destruct (VendorLogin.isActive v); reflexivity.
Qed.

(** The form lets the password empty ("optional for now"), the route does
    not: a submit with an empty password that reaches the server ends with
    the route's message as an error toast, nothing stored, no navigation,
    whatever the identifier and the table. *)
Theorem handleSubmit_empty_password (vendors : list VendorLogin.vendor)
        (f : form) (p : page) :
  password f = "" →
  let p' := handleSubmit trim toLowerCase vendors false f p in
  storage p' = storage p ∧ route p' = route p ∧ loading p' = false ∧
  toasts p' = toasts p ++ [HomePage.ToastError "Please provide email/phone and password"].
Proof.
  intros Hpw p'. subst p'. rewrite handleSubmit_replied.
  unfold VendorLogin.POST. cbn [VendorLogin.identifier VendorLogin.password].
  rewrite Hpw. cbn [VendorLogin.falsy]. rewrite orb_true_r. cbn. repeat split.
Qed.

(** What a submit leaves behind.  It stores the vendor (tagged
    ['vendor']), greets and goes to the dashboard exactly in the case the
    route replies with a vendor; when the request is lost or the route
    refuses, the stored user and the route are as before and the last
    toast is an error.  The loading flag is off in the end in every
    case. *)
Theorem handleSubmit_outcome (vendors : list VendorLogin.vendor) (lost : bool)
        (f : form) (p : page) :
  let p' := handleSubmit trim toLowerCase vendors lost f p in
  let res := VendorLogin.POST trim toLowerCase vendors
               (Some (VendorLogin.Body (Some (identifier f)) (Some (password f)))) in
  loading p' = false ∧
  (∀ d, lost = false → data res = Some d →
        storage p' = Some (VendorLogin.Payload (VendorLogin.pl_vendor d) "vendor") ∧
        route p' = Some "/ui/vendors/dashboard" ∧
        last (toasts p') = Some (HomePage.ToastSuccess "Welcome back!")) ∧
  (lost = true ∨ data res = None →
        storage p' = storage p ∧ route p' = route p ∧
        ∃ e, last (toasts p') = Some (HomePage.ToastError e)).
Proof.
  intros p' res. subst p' res. destruct lost.
  - cbn. split; [reflexivity|]. split; [discriminate|].
    intros _. rewrite last_snoc. eauto.
  - rewrite handleSubmit_replied. cbv zeta.
    destruct (data (VendorLogin.POST _ _ _ _)) as [d|].
    + cbn. split; [reflexivity|]. split.
      * intros d' _ [= <-]. rewrite last_snoc. by repeat split.
      * intros [?|?]; discriminate.
    + cbn. split; [reflexivity|]. split; [discriminate|].
      intros _. rewrite last_snoc. eauto.
Qed.

End VendorLoginPageFacts.

Lemma handleSubmit_empty_password_witness :
  VendorLoginPage.toasts
    (submit [ama] false (VendorLoginPage.Form "ama@shop.gh" "") fresh_login)
  = [HomePage.ToastError "Please provide email/phone and password"].
Proof.
  destruct (handleSubmit_empty_password VendorLogin.ascii_trim VendorLogin.ascii_toLowerCase
              [ama] (VendorLoginPage.Form "ama@shop.gh" "") fresh_login)
    as (_ & _ & _ & H).
  - reflexivity.
  - exact H.
Defined.

Lemma handleSubmit_outcome_witness :
  VendorLoginPage.storage
    (submit [ama] false (VendorLoginPage.Form " Ama@Shop.gh" "guess") fresh_login)
  = Some (VendorLogin.Payload ama "vendor").
Proof.
  destruct (handleSubmit_outcome VendorLogin.ascii_trim VendorLogin.ascii_toLowerCase
              [ama] false (VendorLoginPage.Form " Ama@Shop.gh" "guess") fresh_login)
    as (_ & H & _).
  destruct (H (VendorLogin.Payload ama "vendor")) as (H1 & _); [reflexivity..|exact H1].
Defined.

(** ** The vendor dashboard *)

Section DashboardFacts.
Import Dashboard.



Lemma mount_vendor (u : user) (pr : fetched product) (cr : fetched conversation) :
  VendorLogin.userType (logged u) = "vendor" →
  mount (Some u) pr cr =
  loadStats initial (VendorLogin.vendor_id (VendorLogin.pl_vendor (logged u))) pr cr
            (setVendor u (setMounted true initial)).
Proof.
  intros Hu. unfold mount, effect. rewrite Hu.
  rewrite bool_decide_eq_true_2 by reflexivity. reflexivity.
Qed.

(** The dashboard opens only for a stored user tagged ['vendor'].
    Otherwise it toasts an error, pushes a route (the login page when
    nothing is stored, the home page for another kind of user), requests
    nothing, sets no vendor and keeps showing the spinner. *)
Theorem dashboard_access (stored : option user)
        (pr : fetched product) (cr : fetched conversation) :
  let d := mount stored pr cr in
  (route d = None ↔ ∃ u, stored = Some u ∧ VendorLogin.userType (logged u) = "vendor") ∧
  (route d ≠ None →
     requested d = [] ∧ vendor d = None ∧ spinner d = true ∧
     ∃ e, toasts d = [HomePage.ToastError e]) ∧
  (stored = None → route d = Some "/ui/vendors/login") ∧
  (∀ u, stored = Some u → VendorLogin.userType (logged u) ≠ "vendor" → route d = Some "/").
Proof.
  intros d. subst d. destruct stored as [u|].
  - destruct (decide (VendorLogin.userType (logged u) = "vendor")) as [Hu|Hu].
    + rewrite (mount_vendor _ _ _ Hu).
      assert (route (loadStats initial
                       (VendorLogin.vendor_id (VendorLogin.pl_vendor (logged u))) pr cr
                       (setVendor u (setMounted true initial))) = None) as Hr.
      { destruct pr, cr; reflexivity. }
      rewrite Hr.
      split; [split; [intros _; by exists u|reflexivity]|].
      split; [intros H; by destruct H|].
      split; [discriminate|]. intros u' [= <-] Hne. contradiction.
    + unfold mount, effect. rewrite bool_decide_eq_false_2 by exact Hu. cbn.
      split; [split; [discriminate|intros (u' & [= <-] & Hu'); contradiction]|].
      split; [intros _; repeat split; eauto|].
      split; [discriminate|]. reflexivity.
  - cbn.
    split; [split; [discriminate|intros (u' & [=] & _)]|].
    split; [intros _; repeat split; eauto|].
    split; [reflexivity|]. discriminate.
Qed.

(** The rating card never shows a rating after the mount: [loadStats]
    reads [vendor] from the render it was created in, in which no vendor
    is set yet, so the average rating stays 0 whatever rating the stored
    user carries. *)
Theorem dashboard_rating_not_shown (stored : option user)
        (pr : fetched product) (cr : fetched conversation) :
  rating_shown (mount stored pr cr) = false.
Proof.
  destruct stored as [u|]; [|reflexivity].
  destruct (decide (VendorLogin.userType (logged u) = "vendor")) as [Hu|Hu].
  - rewrite (mount_vendor _ _ _ Hu). destruct pr, cr; reflexivity.
  - unfold mount, effect. rewrite bool_decide_eq_false_2 by exact Hu. reflexivity.
Qed.



End DashboardFacts.



Lemma dashboard_access_witness :
  Dashboard.route (Dashboard.mount None Dashboard.NotOk Dashboard.NotOk)
  = Some "/ui/vendors/login".
Proof.
  destruct (dashboard_access None Dashboard.NotOk Dashboard.NotOk) as (_ & _ & H & _).
  by apply H.
Defined.

(** ** From the login page to the dashboard *)

Section LoginThenDashboard.

Variables trim toLowerCase : string -> string.

(** The user a successful submit stores passes the check of the
    dashboard: mounted on what the login page stored (with whatever rating
    the row has), the dashboard pushes no route, shows no error, sets the
    vendor to the stored user and requests the products of the vendor the
    route returned. *)
Theorem login_then_dashboard (vendors : list VendorLogin.vendor)
        (f : VendorLoginPage.form) (p : VendorLoginPage.page) (v : VendorLogin.vendor)
        (rating : option QArith_base.Q)
        (pr : Dashboard.fetched Dashboard.product)
        (cr : Dashboard.fetched Dashboard.conversation) :
  VendorLoginPage.identifier f ≠ "" → VendorLoginPage.password f ≠ "" →
  VendorLogin.findFirst vendors (toLowerCase (trim (VendorLoginPage.identifier f)))
                        (trim (VendorLoginPage.identifier f)) = Some v →
  VendorLogin.isActive v = true →
  let p' := VendorLoginPage.handleSubmit trim toLowerCase vendors false f p in
  let stored := (λ pl, Dashboard.User pl rating) <$> VendorLoginPage.storage p' in
  let d := Dashboard.mount stored pr cr in
  VendorLoginPage.route p' = Some "/ui/vendors/dashboard" ∧
  Dashboard.route d = None ∧ Dashboard.toasts d = [] ∧
  Dashboard.vendor d = stored ∧
  VendorLogin.pl_vendor <$> (Dashboard.logged <$> Dashboard.vendor d) = Some v ∧
  head (Dashboard.requested d)
    = Some ("/api/products?vendorId=" +:+ VendorLogin.vendor_id v).
Proof.
  intros Hi Hp Hv Ha p' stored d. subst d stored p'.
  rewrite handleSubmit_replied. cbv zeta.
  rewrite (POST_present _ _ _ _ _ Hi Hp), Hv, Ha. cbn [data VendorLogin.success].
  cbn [VendorLoginPage.storage VendorLoginPage.route fmap option_fmap option_map].
  rewrite mount_vendor by reflexivity.
  cbn [Dashboard.logged VendorLogin.pl_vendor VendorLogin.vendor_id].
  destruct pr, cr; repeat split.
Qed.

End LoginThenDashboard.

Lemma login_then_dashboard_witness :
  let p' := submit [kofi; ama] false (VendorLoginPage.Form "AMA@shop.gh" "pw") fresh_login in
  let stored := (λ pl, Dashboard.User pl None) <$> VendorLoginPage.storage p' in
  Dashboard.route (Dashboard.mount stored Dashboard.NotOk Dashboard.NotOk) = None.
Proof.
  intros p' stored.
  destruct (login_then_dashboard VendorLogin.ascii_trim VendorLogin.ascii_toLowerCase
              [kofi; ama] (VendorLoginPage.Form "AMA@shop.gh" "pw") fresh_login ama None
              Dashboard.NotOk Dashboard.NotOk) as (_ & H & _);
    [discriminate|discriminate|reflexivity|reflexivity|exact H].
Defined.

(** ** More on the cart controller *)

Section HomePageMore.
Import HomePage.

(** In the other direction: an increase through [updateCartQuantity] is
    refused on the page, with nothing sent and stock and cart as before,
    when the stock the page knows is below [delta]; otherwise the
    decrement by [delta] is sent, and once the route has applied it the
    stock is lower by [delta] and the line holds [delta] more. *)
Theorem updateCartQuantity_increase (w : world) (pid : string) (delta : Z)
        (item : CartItem) (p : Product) :
  find_item pid (cartItems w) = Some item →
  find_product pid (featuredProducts w) = Some p →
  0 < delta →
  let w' := exec (updateCartQuantity pid delta) w in
  (stockQuantity p < delta →
     server w' = server w ∧ requests w' = requests w ∧
     cartItems w' = cartItems w ∧ localStorage w' = localStorage w ∧
     last (toasts w') = Some (ToastError ("Only " +:+ pretty (stockQuantity p)
                                          +:+ " items available in stock"))) ∧
  (delta <= stockQuantity p →
     requests w' = requests w ++ [(pid, - delta)] ∧
     (delivered w = true →
      ∀ r, server w !! pid = Some r → 0 <= row_stockQuantity r - delta →
           StockRoute.stock_of (server w') pid = Some (row_stockQuantity r - delta) ∧
           quantity <$> find_item pid (cartItems w') = Some (quantity item + delta) ∧
           localStorage w' = cartItems w')).
Proof.
  intros Hitem Hp Hpos w'. subst w'.
  unfold exec, updateCartQuantity. rewrite bind_get, Hitem, Hp. cbv zeta.
  apply Z.ltb_lt in Hpos as Hpos'. rewrite Hpos'. split.
  - intros Hshort. apply Z.ltb_lt in Hshort. rewrite Hshort. cbn.
    rewrite last_snoc. repeat split.
  - intros Henough. apply Z.ltb_ge in Henough as Henough'. rewrite Henough'.
    assert (Z.min (quantity item + delta) (quantity item + stockQuantity p)
            = quantity item + delta) as -> by lia.
    destruct (delivered w && accepted (server w) pid (- delta)) eqn:Hcall.
    + apply andb_prop in Hcall as [Hd Ha].
      rewrite (try_update_accepted _ _ _ _ _ Hd Ha). cbn -[find_item].
      split; [reflexivity|]. intros _ r Hr Hr'. repeat split.
      * rewrite (stock_of_adjusted _ _ _ (row_stockQuantity r)); [reflexivity|].
        unfold StockRoute.stock_of. by rewrite Hr.
      * rewrite find_item_map.
        -- rewrite Hitem. cbn. apply find_item_Some in Hitem as [Hpid _].
           by rewrite decide_True.
        -- intros c. by destruct (decide _).
    + match goal with
      | |- context [try_catch (bind (updateProductStock pid (- delta)) (λ _, ?next))
                              (λ error, toast_error (or_string error ?fb))] =>
          destruct (try_update_failed w pid (- delta) next fb Hcall) as [e He]
      end.
      rewrite He. cbn. split; [reflexivity|]. intros Hd r Hr Hr'.
      rewrite Hd in Hcall. cbn in Hcall.
      rewrite (accepted_row _ _ _ _ Hr) in Hcall; [discriminate|lia].
Qed.

Lemma updateCartQuantity_increase_witness :
  let w := click_add "p1" (exec (setQuantity "p1" 3) shop) in
  requests (exec (updateCartQuantity "p1" 2) w) = [("p1", -3); ("p1", -2)].
Proof.
  intros w.
  destruct (updateCartQuantity_increase w "p1" 2 (MkCartItem "p1" "Kente" 50 None 3 7)
              (MkProduct "p1" "Kente" 50 None 7)) as (_ & H).
  - reflexivity.
  - reflexivity.
  - lia.
  - destruct H as (H & _); [vm_compute; discriminate|exact H].
Defined.

Lemma updateCartQuantity_decrease_witness :
  let w := click_add "p1" shop in
  StockRoute.stock_of (server (exec (updateCartQuantity "p1" (-1)) w)) "p1" = Some (9 - -1)
  ∧ quantity <$> find_item "p1" (cartItems (exec (updateCartQuantity "p1" (-1)) w))
    = Some (Z.max (1 + -1) 1).
Proof.
  intros w.
  destruct (updateCartQuantity_decrease w "p1" (-1) (MkCartItem "p1" "Kente" 50 None 1 9)
              (MkProduct "p1" "Kente" 50 None 9) (Row "Kente" 9)) as (_ & H1 & H2).
  - reflexivity.
  - reflexivity.
  - lia.
  - reflexivity.
  - reflexivity.
  - vm_compute. discriminate.
  - exact (conj H1 H2).
Defined.


(** The quantity selector of a product card keeps the chosen quantity
    between 1 and the stock the page shows (at least one unit), through
    the number field as through the plus and minus buttons, and a number
    in that range is taken as typed.  "Add to cart" on a product not yet
    in the cart then always sends a decrement by the chosen quantity. *)
Theorem selector_in_range (w : world) (p : Product) (q : Z) :
  find_product (id p) (featuredProducts w) = Some p →
  1 <= stockQuantity p →
  let w1 := exec (setQuantity (id p) q) w in
  let w2 := exec (updateQuantity (id p) q) w in
  1 <= chosen w1 (id p) <= stockQuantity p ∧
  1 <= chosen w2 (id p) <= stockQuantity p ∧
  (1 <= q <= stockQuantity p → chosen w1 (id p) = q) ∧
  (find_item (id p) (localStorage w) = None →
     requests (exec (addToCart p) w1) = requests w ++ [(id p, - chosen w1 (id p))]).
Proof.
  intros Hp Hstock w1 w2.
  assert (maxQuantity (id p) w = stockQuantity p) as Hmax.
  { unfold maxQuantity. rewrite Hp. cbn. destruct (stockQuantity p); [lia|reflexivity..]. }
  assert (∀ x, or_number (Some (clamp x (stockQuantity p))) 1 = clamp x (stockQuantity p)
               ∧ 1 <= clamp x (stockQuantity p) <= stockQuantity p) as Hclamp.
  { intros x. unfold clamp. split; [|lia].
    destruct (Z.min (Z.max x 1) (stockQuantity p)) eqn:E; [lia|reflexivity..]. }
  assert (chosen w1 (id p) = clamp q (stockQuantity p)) as H1.
  { unfold chosen, w1, exec, setQuantity. cbn. rewrite lookup_insert_eq, Hmax.
    apply Hclamp. }
  assert (∃ x, chosen w2 (id p) = clamp x (stockQuantity p)) as [x H2].
  { eexists. unfold chosen, w2, exec, updateQuantity. cbn.
    rewrite lookup_insert_eq, Hmax. apply Hclamp. }
  rewrite H1, H2. split; [apply Hclamp|]. split; [apply Hclamp|]. split.
  - intros Hq. unfold clamp. lia.
  - intros Hnone.
    destruct (addToCart_new w1 p) as [Hok Hko].
    + rewrite H1. apply Hclamp.
    + lia.
    + apply find_item_None. exact Hnone.
    + rewrite <- H1.
      destruct (delivered w1 && accepted (server w1) (id p) (- chosen w1 (id p))) eqn:Hcall.
      * apply andb_prop in Hcall as [Hd Ha]. rewrite (Hok Hd Ha). reflexivity.
      * destruct (Hko eq_refl) as [e ->]. reflexivity.
Qed.

Lemma selector_in_range_witness :
  chosen (exec (setQuantity "p1" 40) shop) "p1" = 10 ∧
  chosen (exec (setQuantity "p1" 4) shop) "p1" = 4.
Proof.
  split.
  - reflexivity.
  - destruct (selector_in_range shop kente 4) as (_ & _ & H & _).
    + reflexivity.
    + cbn. lia.
    + apply H. cbn. lia.
Defined.

(** [removeFromCart] on a product without a line does nothing at all; on
    a line whose restore is lost or refused it has sent the restore, but
    stock and cart are as before (the line stays) and the last toast is an
    error. *)
Theorem removeFromCart_failure (w : world) (pid : string) :
  let w' := exec (removeFromCart pid) w in
  (find_item pid (cartItems w) = None → w' = w) ∧
  (∀ item, find_item pid (cartItems w) = Some item →
     delivered w && accepted (server w) pid (quantity item) = false →
     requests w' = requests w ++ [(pid, quantity item)] ∧
     server w' = server w ∧ cartItems w' = cartItems w ∧
     localStorage w' = localStorage w ∧
     ∃ e, last (toasts w') = Some (ToastError e)).
Proof.
  intros w'. subst w'. unfold exec, removeFromCart. rewrite bind_get. split.
  - intros ->. reflexivity.
  - intros item -> Hcall.
    match goal with
    | |- context [try_catch (bind (updateProductStock pid _) (λ _, ?next))
                            (λ error, toast_error (or_string error ?fb))] =>
        destruct (try_update_failed w pid (quantity item) next fb Hcall) as [e He]
    end.
    rewrite He. cbn. rewrite last_snoc. repeat split. eauto.
Qed.

Lemma removeFromCart_failure_witness :
  let w := set_net [true] (click_add "p1" shop) in
  cartItems (exec (removeFromCart "p1") w) = cartItems w.
Proof.
  intros w.
  destruct (removeFromCart_failure w "p1") as (_ & H).
  destruct (H (MkCartItem "p1" "Kente" 50 None 1 9)) as (_ & _ & H' & _);
    [reflexivity|reflexivity|exact H'].
Defined.


(** *** Clearing the cart with a lost restore *)

Lemma restore_toasts (w : world) (item : CartItem) :
  toasts (exec (restore item) w) = toasts w.
Proof.
  unfold exec, restore.
  destruct (delivered w && accepted (server w) (productId item) (quantity item)) eqn:Hcall.
  - apply andb_prop in Hcall as [Hd Ha].
    by rewrite (try_update_accepted _ _ _ _ _ Hd Ha).
  - destruct (updateProductStock_failed _ _ _ Hcall) as (e & _ & He).
    unfold try_catch, bind. by rewrite He.
Qed.

Lemma for_each_restore_toasts (l : list CartItem) (w : world) :
  toasts (exec (for_each restore l) w) = toasts w.
Proof.
  revert w. induction l as [|a l IH]; intros w; [reflexivity|].
  destruct (restore_effect w a) as (Hret & _).
  unfold exec at 1. rewrite (for_each_cons _ _ _ _ Hret).
  fold (exec (for_each restore l) (exec (restore a) w)).
  by rewrite IH, restore_toasts.
Qed.

Lemma for_each_restore_lost (l : list CartItem) :
  ∀ (w : world) (i : nat) (item : CartItem),
    NoDup (map productId l) →
    l !! i = Some item → net w !! i = Some true →
    server (exec (for_each restore l) w) !! productId item = server w !! productId item.
Proof.
  induction l as [|a l IH]; intros w i item Hnd Hi Hnet; [discriminate|].
  cbn [map] in Hnd. apply NoDup_cons in Hnd as [Hfresh Hnd].
  destruct (restore_effect w a) as (Hret & _ & Hnet' & _ & _ & Hsrv).
  unfold exec at 1. rewrite (for_each_cons _ _ _ _ Hret).
  fold (exec (for_each restore l) (exec (restore a) w)).
  destruct i as [|i].
  - injection Hi as ->.
    rewrite (for_each_restore_frame _ _ _ Hfresh), Hsrv.
    assert (delivered w = false) as ->; [|reflexivity].
    unfold delivered. destruct (net w) as [|[] rest]; [discriminate|reflexivity|discriminate].
  - cbn in Hi.
    assert (productId item ≠ productId a) as Hne.
    { intros Heq. apply Hfresh. rewrite <- Heq.
      apply list_elem_of_fmap. exists item. split; [reflexivity|].
      by eapply list_elem_of_lookup_2. }
    rewrite (IH _ i item Hnd Hi).
    + by apply restore_other.
    + rewrite Hnet'. destruct (net w); [discriminate|exact Hnet].
Qed.

(** A restore of [clearCart] that is lost is not made up for: the stock
    of that product is as before, yet the cart is emptied all the same and
    the only toast is the success "Cart cleared".  (The lines carry
    distinct products.) *)
Theorem clearCart_lost_restore_leaks (w : world) (i : nat) (item : CartItem) :
  NoDup (map productId (cartItems w)) →
  cartItems w !! i = Some item → net w !! i = Some true →
  let w' := exec clearCart w in
  server w' !! productId item = server w !! productId item ∧
  cartItems w' = [] ∧ localStorage w' = [] ∧
  toasts w' = toasts w ++ [ToastSuccess "Cart cleared"].
Proof.
  intros Hnd Hi Hnet w'. subst w'. rewrite clearCart_world. cbn.
  rewrite for_each_restore_toasts.
  by rewrite (for_each_restore_lost _ w i item Hnd Hi Hnet).
Qed.

Lemma clearCart_lost_restore_leaks_witness :
  let w' := exec clearCart (set_net [false; true] shop_AB) in
  StockRoute.stock_of (server w') "B" = Some 10 ∧ cartItems w' = [].
Proof.
  intros w'.
  destruct (clearCart_lost_restore_leaks (set_net [false; true] shop_AB) 1
              (MkCartItem "B" "Bolga basket" 25 None 3 10)) as (H1 & H2 & _).
  - apply (bool_decide_unpack _). vm_compute. exact I.
  - reflexivity.
  - reflexivity.
  - split; [|exact H2].
    exact (eq_trans (f_equal (fmap row_stockQuantity) H1) eq_refl).
Defined.

(** *** Adding while page and server agree *)

(** While the page is in step with the server and the transport works,
    [addToCart] on the rendered product is never refused by the route:
    either the page itself rejects (nothing sent, cart as before), or the
    decrement is sent, the stock drops by the chosen quantity and the cart
    holds that much more of the product. *)
Theorem addToCart_in_step_goes_through (pid : string) (total : Z) (w : world) (p : Product) :
  in_step pid total w → rendered pid w = Some p → delivered w = true →
  let q := chosen w pid in
  let w' := exec (addToCart p) w in
  (requests w' = requests w ∧ localStorage w' = localStorage w ∧ server w' = server w) ∨
  (requests w' = requests w ++ [(pid, - q)] ∧
   held pid w' = held pid w + q ∧
   StockRoute.stock_of (server w') pid = Some (total - held pid w - q)).
Proof.
  intros Hw Hp Hd q w'.
  pose proof (addToCart_in_step pid total w p Hp Hw) as Hw'. fold w' in Hw'.
  assert (id p = pid) as Hid by (by eapply find_product_id).
  destruct Hw as (_ & _ & s & Hs & Hpos & Hsum & Hr). specialize (Hr p Hp).
  subst q. rewrite <- Hid in *. clear Hid.
  assert (∀ msg, w' = set_toasts (toasts w ++ [ToastError msg]) w →
                 requests w' = requests w ∧ localStorage w' = localStorage w
                 ∧ server w' = server w) as Hrej.
  { intros msg ->. repeat split. }
  destruct (Z.lt_ge_cases (stockQuantity p) (chosen w (id p))) as [H1|H1].
  { left. eapply Hrej. by apply addToCart_over. }
  destruct (Z.le_gt_cases (stockQuantity p) 0) as [H2|H2].
  { left. eapply Hrej. by apply addToCart_out. }
  assert (accepted (server w) (id p) (- chosen w (id p)) = true) as Ha.
  { unfold accepted, StockRoute.stock_of in *.
    destruct (server w !! id p) as [r|]; [|discriminate].
    injection Hs as <-. apply Z.leb_le. lia. }
  assert (∀ cart t,
            w' = set_showCartPreview true
                   (set_cartItems cart (set_cartItems cart (set_localStorage cart
                      (served (id p) (- chosen w (id p))
                              (set_toasts (toasts w ++ [ToastSuccess t]) w))))) →
            requests w' = requests w ++ [(id p, - chosen w (id p))] ∧
            held (id p) w' = held (id p) w + chosen w (id p) ∧
            StockRoute.stock_of (server w') (id p)
            = Some (total - held (id p) w - chosen w (id p))) as Hdone.
  { intros cart t E.
    assert (StockRoute.stock_of (server w') (id p) = Some (s + - chosen w (id p))) as Hs'.
    { rewrite E. cbn. by apply stock_of_adjusted. }
    destruct Hw' as (_ & _ & s' & Hs'' & _ & Hsum' & _).
    rewrite Hs' in Hs''. injection Hs'' as <-.
    split; [by rewrite E|]. split; [lia|]. rewrite Hs'. f_equal. lia. }
  destruct (list_find (λ item, productId item = id p) (localStorage w))
    as [[i existing]|] eqn:Hf.
  - destruct (Z.lt_ge_cases (stockQuantity p) (quantity existing + chosen w (id p)))
      as [H3|H3].
    + left. eapply Hrej. by eapply addToCart_full.
    + destruct (addToCart_merge w p i existing H1 H2 Hf H3) as [Hok _].
      right. eapply Hdone. exact (Hok Hd Ha).
  - destruct (addToCart_new w p H1 H2 Hf) as [Hok _].
    right. eapply Hdone. exact (Hok Hd Ha).
Qed.


Lemma addToCart_in_step_goes_through_witness :
  let w := exec (setQuantity "p1" 4) shop in
  held "p1" (exec (addToCart kente) w) = held "p1" w + 4.
Proof.
  intros w.
  destruct (addToCart_in_step_goes_through "p1" 10 w kente) as [(H & _)|(_ & H & _)].
  - exact shop_in_step.
  - reflexivity.
  - reflexivity.
  - vm_compute in H. discriminate H.
  - exact H.
Defined.

(** *** The lines of the cart *)

(** [addToCart] never gives a product a second line: a stored cart with
    one line per product has one line per product afterwards, whatever
    the outcome. *)
Theorem addToCart_one_line_per_product (w : world) (p : Product) :
  NoDup (productId <$> localStorage w) →
  NoDup (productId <$> localStorage (exec (addToCart p) w)).
Proof.
  intros Hnd.
  assert (∀ w', localStorage w' = localStorage w →
                NoDup (productId <$> localStorage w')) as Hsame.
  { intros w' ->. exact Hnd. }
  destruct (Z.lt_ge_cases (stockQuantity p) (chosen w (id p))) as [H1|H1].
  { apply Hsame. by rewrite addToCart_over. }
  destruct (Z.le_gt_cases (stockQuantity p) 0) as [H2|H2].
  { apply Hsame. by rewrite addToCart_out. }
  destruct (list_find (λ item, productId item = id p) (localStorage w))
    as [[i existing]|] eqn:Hf.
  - destruct (Z.lt_ge_cases (stockQuantity p) (quantity existing + chosen w (id p)))
      as [H3|H3].
    { apply Hsame. by rewrite (addToCart_full _ _ _ _ H1 H2 Hf H3). }
    destruct (addToCart_merge w p i existing H1 H2 Hf H3) as [Hok Hko].
    destruct (delivered w && accepted (server w) (id p) (- chosen w (id p))) eqn:Hcall.
    + apply andb_prop in Hcall as [Hd Ha]. rewrite (Hok Hd Ha). cbn.
      apply list_find_Some in Hf as (Hi & Hpid & _).
      rewrite (merged_insert _ _ _ _ _ Hi), list_fmap_insert. cbn.
      rewrite list_insert_id; [exact Hnd|].
      rewrite list_lookup_fmap, Hi. cbn. by rewrite Hpid.
    + destruct (Hko eq_refl) as [e ->]. exact Hnd.
  - destruct (addToCart_new w p H1 H2 Hf) as [Hok Hko].
    destruct (delivered w && accepted (server w) (id p) (- chosen w (id p))) eqn:Hcall.
    + apply andb_prop in Hcall as [Hd Ha]. rewrite (Hok Hd Ha). cbn.
      rewrite fmap_app. apply NoDup_app. split; [exact Hnd|]. split.
      * intros x Hx. cbn. intros ->%list_elem_of_singleton.
        apply list_elem_of_fmap in Hx as (c & Hc & Hin).
        apply list_find_None in Hf. rewrite Forall_forall in Hf.
        by apply (Hf c).
      * apply NoDup_singleton.
    + destruct (Hko eq_refl) as [e ->]. exact Hnd.
Qed.

Lemma addToCart_one_line_per_product_witness :
  NoDup (productId <$> localStorage (exec (addToCart kente) (click_add "p1" shop))).
Proof.
  apply addToCart_one_line_per_product.
  apply (bool_decide_unpack _). vm_compute. exact I.
Defined.

Lemma refresh_cartItems (w : world) (pid msg : string) :
  cartItems (exec (bind (refreshProduct pid) (λ _, toast_error msg)) w) = cartItems w.
Proof.
  unfold exec, refreshProduct, fetch_product, try_catch, bind. cbv beta.
  destruct (net w) as [|[] rest]; cbn; [|reflexivity|];
    by destruct (StockRoute.stock_of (server w) pid).
Qed.

(** [updateCartQuantity] changes quantities only: the products of the
    lines, in their order, are as before in every case, so no line is
    added or dropped; and if every line held at least one unit, every line
    still does. *)
Theorem updateCartQuantity_keeps_lines (w : world) (pid : string) (delta : Z) :
  let w' := exec (updateCartQuantity pid delta) w in
  productId <$> cartItems w' = productId <$> cartItems w ∧
  (Forall (λ c, 1 <= quantity c) (cartItems w) →
   Forall (λ c, 1 <= quantity c) (cartItems w')).
Proof.
  intros w'. subst w'.
  assert (∀ w', cartItems w' = cartItems w →
                productId <$> cartItems w' = productId <$> cartItems w ∧
                (Forall (λ c, 1 <= quantity c) (cartItems w) →
                 Forall (λ c, 1 <= quantity c) (cartItems w'))) as Hsame.
  { by intros w' ->. }
  unfold updateCartQuantity, exec at 1 2. rewrite bind_get.
  destruct (find_item pid (cartItems w)) as [item|] eqn:Hitem; [|by apply Hsame].
  destruct (find_product pid (featuredProducts w)) as [p|] eqn:Hp;
    [|apply Hsame, refresh_cartItems].
  cbv zeta.
  assert (∀ newQuantity,
            (1 <= quantity item → 1 <= newQuantity) →
            let updated :=
              map (λ cartItem, if decide (productId cartItem = pid)
                     then MkCartItem (productId cartItem) (item_productName cartItem)
                            (item_price cartItem) (item_imageURL cartItem) newQuantity
                            (stockQuantity p - (newQuantity - quantity item))
                     else cartItem) (cartItems w) in
            let w' := (try_catch
                         (bind (updateProductStock pid (- delta))
                            (λ _, bind (writeCart updated) (λ _, setCartItems updated)))
                         (λ error, toast_error
                            (or_string error "Failed to update stock. Please try again."))
                         w).1 in
            productId <$> cartItems w' = productId <$> cartItems w ∧
            (Forall (λ c, 1 <= quantity c) (cartItems w) →
             Forall (λ c, 1 <= quantity c) (cartItems w'))) as Hfin.
  { intros newQuantity Hnew updated w'. subst w'.
    destruct (delivered w && accepted (server w) pid (- delta)) eqn:Hcall.
    - apply andb_prop in Hcall as [Hd Ha].
      rewrite (try_update_accepted _ _ _ _ _ Hd Ha). cbn. split.
      + apply map_keeps_productId. intros c. by destruct (decide _).
      + intros Hall. pose proof Hall as Hall'. rewrite Forall_forall in Hall'.
        apply find_item_Some in Hitem as [_ Hin]. specialize (Hnew (Hall' _ Hin)).
        unfold updated. clear -Hall Hnew. induction Hall as [|c l Hc Hl IH]; cbn.
        * constructor.
        * constructor; [|exact IH]. by destruct (decide _).
    - destruct (try_update_failed w pid (- delta)
                  (bind (writeCart updated) (λ _, setCartItems updated))
                  "Failed to update stock. Please try again." Hcall) as [e He].
      rewrite He. by apply Hsame. }
  destruct (0 <? delta) eqn:Hpos.
  - destruct (stockQuantity p <? delta) eqn:Hshort; [by apply Hsame|].
    apply Hfin. apply Z.ltb_lt in Hpos. apply Z.ltb_ge in Hshort. lia.
  - apply Hfin. lia.
Qed.

Lemma updateCartQuantity_keeps_lines_witness :
  let w := click_add "p1" shop in
  Forall (λ c, 1 <= quantity c) (cartItems (exec (updateCartQuantity "p1" (-5)) w)).
Proof.
  intros w.
  destruct (updateCartQuantity_keeps_lines w "p1" (-5)) as (_ & H).
  apply H. repeat constructor. vm_compute. discriminate.
Defined.

(** The plus button of a cart line is enabled only where a click gets
    past the page's stock check: for a line the page finds, with a
    quantity that is not negative, [updateCartQuantity] with 1 sends the
    decrement by one. *)
Theorem plus_enabled_sends (w : world) (item : CartItem) :
  plus_disabled item w = false →
  find_item (productId item) (cartItems w) = Some item →
  0 <= quantity item →
  requests (exec (updateCartQuantity (productId item) 1) w)
  = requests w ++ [(productId item, -1)].
Proof.
  unfold plus_disabled. intros Hen Hitem Hq.
  destruct (find_product (productId item) (featuredProducts w)) as [p|] eqn:Hp;
    [|discriminate].
  apply Z.leb_gt in Hen.
  unfold exec, updateCartQuantity. rewrite bind_get, Hitem, Hp. cbv zeta.
  change (0 <? 1) with true. cbv iota.
  assert ((stockQuantity p <? 1) = false) as -> by (apply Z.ltb_ge; lia).
  destruct (delivered w && accepted (server w) (productId item) (- (1))) eqn:Hcall.
  - apply andb_prop in Hcall as [Hd Ha].
    by rewrite (try_update_accepted _ _ _ _ _ Hd Ha).
  - match goal with
    | |- context [try_catch (bind (updateProductStock _ _) (λ _, ?next))
                            (λ error, toast_error (or_string error ?fb))] =>
        destruct (try_update_failed w (productId item) (- (1)) next fb Hcall) as [e He]
    end.
    by rewrite He.
Qed.

Lemma plus_enabled_sends_witness :
  let w := click_add "p1" shop in
  requests (exec (updateCartQuantity "p1" 1) w) = [("p1", -1); ("p1", -1)].
Proof.
  intros w.
  apply (plus_enabled_sends w (MkCartItem "p1" "Kente" 50 None 1 9)).
  - reflexivity.
  - reflexivity.
  - cbn. lia.
Defined.

(** The button compares the quantity held with the stock that is left, so
    it is disabled here although four units are left and the change would
    go through. *)
Example plus_disabled_with_stock_left :
  let w := click_add "p1" (exec (setQuantity "p1" 6) shop) in
  cartItems w = [MkCartItem "p1" "Kente" 50 None 6 4] ∧
  plus_disabled (MkCartItem "p1" "Kente" 50 None 6 4) w = true ∧
  StockRoute.stock_of (server (exec (updateCartQuantity "p1" 1) w)) "p1" = Some 3.
Proof. vm_compute. repeat split. Qed.


(** *** Totals *)

Lemma sum_shift (f : CartItem → Z) (l : list CartItem) (a : Z) :
  fold_left (λ sum item, sum + f item) l a
  = a + fold_left (λ sum item, sum + f item) l 0.
Proof.
  revert a. induction l as [|c l IH]; intros a; cbn [fold_left]; [lia|].
  rewrite (IH (a + f c)), (IH (0 + f c)). lia.
Qed.

Lemma sum_app (f : CartItem → Z) (l k : list CartItem) :
  fold_left (λ sum item, sum + f item) (l ++ k) 0
  = fold_left (λ sum item, sum + f item) l 0 + fold_left (λ sum item, sum + f item) k 0.
Proof. rewrite fold_left_app. apply sum_shift. Qed.

Lemma sum_insert (f : CartItem → Z) (l : list CartItem) (i : nat) (x y : CartItem) :
  l !! i = Some x →
  fold_left (λ sum item, sum + f item) (<[i := y]> l) 0
  = fold_left (λ sum item, sum + f item) l 0 - f x + f y.
Proof.
  revert i. induction l as [|c l IH]; intros i Hi; [discriminate|].
  destruct i as [|i].
  - injection Hi as ->. change (<[0%nat := y]> (x :: l)) with (y :: l).
    cbn [fold_left].
    rewrite (sum_shift f l (0 + f y)), (sum_shift f l (0 + f x)). lia.
  - cbn in Hi. change (<[S i := y]> (c :: l)) with (c :: <[i := y]> l).
    cbn [fold_left].
    rewrite (sum_shift f (<[i := y]> l) (0 + f c)), (sum_shift f l (0 + f c)), (IH i Hi).
    lia.
Qed.

Lemma sum_nonneg (f : CartItem → Z) (l : list CartItem) :
  Forall (λ c, 0 <= f c) l → 0 <= fold_left (λ sum item, sum + f item) l 0.
Proof.
  induction 1 as [|c l Hc Hl IH]; cbn [fold_left]; [lia|].
  rewrite sum_shift. lia.
Qed.

(** An "Add to cart" that goes through raises the item count of the
    preview by the chosen quantity and the subtotal by that quantity at
    the price of the line: the product's price for a new line, the price
    the line already carries when the product is in the cart.  (The page
    shows the stored cart; quantities at least 1.) *)
Theorem cartTotals_after_add (w : world) (p : Product) :
  cartItems w = localStorage w →
  1 <= chosen w (id p) →
  Forall (λ c, 1 <= quantity c) (localStorage w) →
  default 0 (quantity <$> find_item (id p) (localStorage w)) + chosen w (id p)
    <= stockQuantity p →
  delivered w = true → accepted (server w) (id p) (- chosen w (id p)) = true →
  let w' := exec (addToCart p) w in
  let unit := default (price p) (item_price <$> find_item (id p) (localStorage w)) in
  totalItems (cartTotals w') = totalItems (cartTotals w) + chosen w (id p) ∧
  subtotal (cartTotals w') = subtotal (cartTotals w) + unit * chosen w (id p).
Proof.
  intros Hsync Hq Hall Hroom Hd Ha w' unit. subst w' unit.
  unfold cartTotals. cbn [totalItems subtotal]. rewrite Hsync. unfold find_item in *.
  destruct (list_find (λ item, productId item = id p) (localStorage w))
    as [[i existing]|] eqn:Hf; cbn in Hroom |- *.
  - apply list_find_Some in Hf as Hf'. destruct Hf' as (Hi & _ & _).
    assert (1 <= quantity existing) as He.
    { rewrite Forall_forall in Hall. apply Hall. by eapply list_elem_of_lookup_2. }
    destruct (addToCart_merge w p i existing) as [Hok _]; [lia|lia|exact Hf|lia|].
    rewrite (Hok Hd Ha). cbn. rewrite (merged_insert _ _ _ _ _ Hi).
    rewrite !(sum_insert _ _ _ _ _ Hi). cbn. lia.
  - destruct (addToCart_new w p) as [Hok _]; [lia|lia|exact Hf|].
    rewrite (Hok Hd Ha). cbn. rewrite !sum_app. cbn. lia.
Qed.

Lemma cartTotals_after_add_witness :
  let w := exec (setQuantity "p1" 3) shop in
  totalItems (cartTotals (exec (addToCart kente) w)) = totalItems (cartTotals w) + 3.
Proof.
  intros w.
  destruct (cartTotals_after_add w kente) as (H & _).
  - reflexivity.
  - vm_compute. discriminate.
  - constructor.
  - vm_compute. discriminate.
  - reflexivity.
  - reflexivity.
  - exact H.
Defined.

(** With no negative price or quantity in the cart, the preview shows the
    hint about free shipping exactly when it charges shipping; the charge
    is 0 or 20, the total is the subtotal plus the charge, and an empty
    cart totals 0. *)
Theorem cartTotals_shipping (w : world) :
  Forall (λ c, 0 <= item_price c ∧ 0 <= quantity c) (cartItems w) →
  let t := cartTotals w in
  total t = subtotal t + shipping t ∧
  (shipping t = 0 ∨ shipping t = 20) ∧
  (free_shipping_hint w = true ↔ shipping t = 20) ∧
  (cartItems w = [] → total t = 0 ∧ totalItems t = 0).
Proof.
  intros Hall t.
  assert (0 <= subtotal t) as Hsub.
  { subst t. unfold cartTotals. cbn [subtotal].
    apply (sum_nonneg (λ c, item_price c * quantity c)).
    eapply Forall_impl; [exact Hall|]. cbn. intros c [? ?]. nia. }
  unfold free_shipping_hint. fold t. revert Hsub. subst t. unfold cartTotals.
  cbn [total subtotal shipping totalItems].
  set (sub := fold_left _ (cartItems w) 0). intros Hsub.
  split; [reflexivity|].
  destruct (sub =? 0) eqn:H0; [apply Z.eqb_eq in H0|apply Z.eqb_neq in H0];
    (destruct (500 <=? sub) eqn:H5; [apply Z.leb_le in H5|apply Z.leb_gt in H5]).
  all: split; [auto|]; split.
  all: try (rewrite andb_true_iff, Z.ltb_lt, Z.ltb_lt; split; [lia|]; intros; try lia;
            discriminate).
  all: try (intros E; subst sub; rewrite E in *; cbn in *; split; [lia|reflexivity]).
  all: intros E; subst sub; rewrite E in *; cbn in *; lia.
Qed.

Lemma cartTotals_shipping_witness :
  let w := click_add "p1" shop in
  free_shipping_hint w = true ∧ total (cartTotals w) = 50 + 20.
Proof.
  intros w.
  destruct (cartTotals_shipping w) as (H1 & _ & H2 & _).
  - repeat constructor; vm_compute; discriminate.
  - split; [apply H2; reflexivity|exact H1].
Defined.


(** *** Category icons *)









(** The keyword "car" is also found inside other words. *)
Example getCategoryIcon_care :
  getCategoryIcon VendorLogin.ascii_toLowerCase "Skin Care" = "🚗" ∧
  getCategoryIcon VendorLogin.ascii_toLowerCase "Health Care" = "⚕️" ∧
  getCategoryIcon VendorLogin.ascii_toLowerCase "" = "🏷️".
Proof. vm_compute. repeat split. Qed.

End HomePageMore.
